(** * markdown-to-pdf: the client request/download flow and the conversion
      pipeline

    A shallow embedding of [src/App.jsx] (the React client: editor state,
    the two asynchronous submit handlers, the blob download) and of the
    [convert] handler shown in the architecture notes, with the properties
    the specification states about them.

    Layout:
    - [JsString]: JavaScript strings as UTF-16 code units, with the
      built-ins the handlers call ([trim], [replace(/\s+/g, '_')],
      [JSON.stringify], number-to-string).
    - [Browser]: the part of the DOM and of the object-URL registry the
      download touches.
    - [Client]: the React state, the handlers as resumable computations
      in a small monad with exceptions and [await], and the event loop.
    - [Server]: the [convert] pipeline and the request validation. *)

From Stdlib Require Import String Ascii List NArith ZArith Bool Lia.
From ExtLib Require Import Structures.Monad.
Import ListNotations.

(* ===================================================================== *)
(** * JavaScript strings *)
(* ===================================================================== *)

Module JsString.

(** A JavaScript string is a sequence of 16-bit code units. *)
Definition jsstring : Type := list N.

(** A source literal made of ASCII characters only. *)
Definition lit (s : string) : jsstring :=
  map N_of_ascii (list_ascii_of_string s).

Definition jsstring_eqb (a b : jsstring) : bool :=
  if list_eq_dec N.eq_dec a b then true else false.

(** ToBoolean on a string: the empty string is the only falsy one. *)
Definition truthy (s : jsstring) : bool :=
  match s with
  | [] => false
  | _ :: _ => true
  end.

(** The code units matched by [\s] and stripped by [trim]: ECMAScript
    WhiteSpace (TAB, VT, FF, SP, NBSP, ZWNBSP and the Unicode space
    separators) and LineTerminator (LF, CR, LS, PS). *)
Definition is_whitespace (c : N) : bool :=
  ((9 <=? c) && (c <=? 13)
   || (c =? 32) || (c =? 160) || (c =? 0x1680)
   || ((0x2000 <=? c) && (c <=? 0x200a))
   || (c =? 0x2028) || (c =? 0x2029) || (c =? 0x202f) || (c =? 0x205f)
   || (c =? 0x3000) || (c =? 0xfeff))%N.

(** [String.prototype.trim] *)
Fixpoint trimStart (s : jsstring) : jsstring :=
  match s with
  | [] => []
  | c :: r => if is_whitespace c then trimStart r else s
  end.

Definition trimEnd (s : jsstring) : jsstring := rev (trimStart (rev s)).

Definition trim (s : jsstring) : jsstring := trimEnd (trimStart s).

(** [s.replace(/\s+/g, repl)]: the matcher scans from the left; at a
    whitespace code unit the greedy [\s+] consumes the whole run, the
    replacement is emitted once, and the scan resumes after the run.
    [replace_scan] is the scan between matches, [replace_run] the inside
    of a match. *)
Fixpoint replace_scan (repl s : jsstring) : jsstring :=
  match s with
  | [] => []
  | c :: r =>
      if is_whitespace c then repl ++ replace_run repl r
      else c :: replace_scan repl r
  end
with replace_run (repl s : jsstring) : jsstring :=
  match s with
  | [] => []
  | c :: r =>
      if is_whitespace c then replace_run repl r
      else c :: replace_scan repl r
  end.

Definition underscore : jsstring := lit "_".

Definition replace_whitespace_runs (s : jsstring) : jsstring :=
  replace_scan underscore s.

(** The wording of the specification: cut the string into its maximal
    blocks of whitespace and of non-whitespace, and put one underscore for
    every whitespace block. *)
Fixpoint ws_blocks (s : jsstring) : list (bool * jsstring) :=
  match s with
  | [] => []
  | c :: r =>
      match ws_blocks r with
      | (b, blk) :: rest =>
          if Bool.eqb b (is_whitespace c) then (b, c :: blk) :: rest
          else (is_whitespace c, [c]) :: (b, blk) :: rest
      | [] => [(is_whitespace c, [c])]
      end
  end.

(** What makes the blocks maximal runs: each is non-empty and of one
    kind, and neighbours differ in kind. *)
Definition uniform_block (blk : bool * jsstring) : Prop :=
  snd blk <> [] /\ Forall (fun c => is_whitespace c = fst blk) (snd blk).

Fixpoint alternating (l : list (bool * jsstring)) : Prop :=
  match l with
  | a :: (b :: _) as rest => fst a <> fst b /\ alternating rest
  | _ => True
  end.

Definition block_image (blk : bool * jsstring) : jsstring :=
  if fst blk then underscore else snd blk.

Definition underscore_per_run (s : jsstring) : jsstring :=
  concat (map block_image (ws_blocks s)).

(** [indexOf]-style containment. *)
Fixpoint starts_with (p s : jsstring) : bool :=
  match p, s with
  | [], _ => true
  | _ :: _, [] => false
  | a :: p', b :: s' => (a =? b)%N && starts_with p' s'
  end.

Fixpoint includes (s p : jsstring) : bool :=
  starts_with p s
  || match s with
     | [] => false
     | _ :: r => includes r p
     end.

(** Number::toString for a non-negative integer (the HTTP status in the
    template literal [`Server error: ${response.status}`]). *)
Fixpoint digits_fuel (fuel : nat) (n : N) (acc : jsstring) : jsstring :=
  match fuel with
  | O => acc
  | S fuel' =>
      let acc' := (48 + n mod 10)%N :: acc in
      if (n <? 10)%N then acc' else digits_fuel fuel' (n / 10)%N acc'
  end.

Definition number_to_string (n : N) : jsstring :=
  digits_fuel (S (N.to_nat (N.log2 n))) n [].


(** ** JSON.stringify on a flat object of string-valued properties *)

Definition hex_digit (d : N) : N :=
  (if d <? 10 then 48 + d else 87 + d)%N.

(** UnicodeEscape: backslash, u, four lower-case hexadecimal digits. *)
Definition unicode_escape (c : N) : jsstring :=
  [92; 117; hex_digit (c / 4096 mod 16); hex_digit (c / 256 mod 16);
   hex_digit (c / 16 mod 16); hex_digit (c mod 16)]%N.

Definition is_high_surrogate (c : N) : bool :=
  ((0xd800 <=? c) && (c <=? 0xdbff))%N.

Definition is_low_surrogate (c : N) : bool :=
  ((0xdc00 <=? c) && (c <=? 0xdfff))%N.

(** The escape of one code unit that is not part of a surrogate pair. *)
Definition quote_unit (c : N) : jsstring :=
  (if c =? 8 then [92; 98]
   else if c =? 9 then [92; 116]
   else if c =? 10 then [92; 110]
   else if c =? 12 then [92; 102]
   else if c =? 13 then [92; 114]
   else if c =? 34 then [92; 34]
   else if c =? 92 then [92; 92]
   else if (c <? 32) || is_high_surrogate c || is_low_surrogate c
        then unicode_escape c
   else [c])%N.

(** QuoteJSONString walks code points: a high surrogate followed by a low
    one is a pair and is copied, a lone surrogate is escaped. *)
Fixpoint quote_chars (s : jsstring) : jsstring :=
  match s with
  | [] => []
  | c :: r =>
      if is_high_surrogate c then
        match r with
        | d :: r' =>
            if is_low_surrogate d then c :: d :: quote_chars r'
            else quote_unit c ++ quote_chars r
        | [] => quote_unit c
        end
      else quote_unit c ++ quote_chars r
  end.

Definition quote (s : jsstring) : jsstring :=
  [34%N] ++ quote_chars s ++ [34%N].

Definition stringify_property (kv : jsstring * jsstring) : jsstring :=
  quote (fst kv) ++ [58%N] ++ quote (snd kv).

Fixpoint join_comma (parts : list jsstring) : jsstring :=
  match parts with
  | [] => []
  | [p] => p
  | p :: rest => p ++ [44%N] ++ join_comma rest
  end.

(** [JSON.stringify(o)] for an object whose own properties, in insertion
    order, are [props], all with string values. *)
Definition JSON_stringify (props : list (jsstring * jsstring)) : jsstring :=
  [123%N] ++ join_comma (map stringify_property props) ++ [125%N].

(** ** Reading back what [JSON.stringify] writes *)

(** The value of a hexadecimal digit of an escape. *)
Definition unhex_digit (c : N) : N :=
  (if (48 <=? c) && (c <=? 57) then c - 48 else c - 87)%N.

Definition unhex4 (a b c d : N) : N :=
  (((unhex_digit a * 16 + unhex_digit b) * 16 + unhex_digit c) * 16
   + unhex_digit d)%N.

(** The content of a JSON string up to its closing quote, unescaped,
    and what follows the quote. *)
Fixpoint read_chars (s : jsstring) : option (jsstring * jsstring) :=
  match s with
  | [] => None
  | c :: rest =>
      if (c =? 34)%N then Some ([], rest)
      else if (c =? 92)%N then
        match rest with
        | [] => None
        | e :: rest' =>
            if (e =? 117)%N then
              match rest' with
              | a :: b :: c' :: d :: rest'' =>
                  match read_chars rest'' with
                  | Some (t, r) => Some (unhex4 a b c' d :: t, r)
                  | None => None
                  end
              | _ => None
              end
            else
              let u := (if e =? 98 then 8 else if e =? 116 then 9
                        else if e =? 110 then 10 else if e =? 102 then 12
                        else if e =? 114 then 13 else e)%N in
              match read_chars rest' with
              | Some (t, r) => Some (u :: t, r)
              | None => None
              end
        end
      else
        match read_chars rest with
        | Some (t, r) => Some (c :: t, r)
        | None => None
        end
  end.

Definition read_more (c : N) (rest : jsstring) : option (jsstring * jsstring) :=
  match read_chars rest with
  | Some (t, r) => Some (c :: t, r)
  | None => None
  end.

(** What follows the first property of an object. *)
Definition after_first (t : list (jsstring * jsstring)) : jsstring :=
  match t with
  | [] => [125%N]
  | _ :: _ => 44%N :: join_comma (map stringify_property t) ++ [125%N]
  end.

End JsString.
Import JsString.

(* ===================================================================== *)
(** * The browser objects the download touches *)
(* ===================================================================== *)

Module Browser.

(** The bytes of a response body. *)
Definition Blob : Type := list N.

(** What the handlers do to the browser, in program order. *)
Inductive Effect : Type :=
| E_createObjectURL (url : N)
| E_appendChild (node : N)
| E_click (node : N) (download : jsstring) (target : option Blob)
| E_revokeObjectURL (url : N)
| E_removeChild (node : N)
| E_console_error (label message : jsstring).

Record Dom : Type := mkDom {
  body_children : list N;          (* the nodes under document.body, in order *)
  next_node : N;                   (* identity of the next created element *)
  object_urls : list (N * Blob);   (* the blob URL store: live object URLs *)
  next_url : N;                    (* the next object URL handed out *)
  journal : list Effect            (* effects so far, oldest first *)
}.

(** The anchor element built by the download. *)
Record Anchor : Type := mkAnchor {
  node : N;
  href : option N;
  download : jsstring
}.

Definition log (e : Effect) (d : Dom) : Dom :=
  mkDom (body_children d) (next_node d) (object_urls d) (next_url d)
        (journal d ++ [e]).

(** [window.URL.createObjectURL(blob)] *)
Definition createObjectURL (b : Blob) (d : Dom) : N * Dom :=
  let u := next_url d in
  (u, log (E_createObjectURL u)
        (mkDom (body_children d) (next_node d) ((u, b) :: object_urls d)
               (N.succ u) (journal d))).

(** [document.createElement('a')] *)
Definition createElement_a (d : Dom) : Anchor * Dom :=
  let n := next_node d in
  (mkAnchor n None [],
   mkDom (body_children d) (N.succ n) (object_urls d) (next_url d) (journal d)).

Definition mem_node (n : N) (l : list N) : bool := existsb (N.eqb n) l.

Definition without_node (n : N) (l : list N) : list N :=
  filter (fun m => negb (N.eqb n m)) l.

(** [document.body.appendChild(a)]: a node already in the tree is moved. *)
Definition appendChild (a : Anchor) (d : Dom) : Dom :=
  log (E_appendChild (node a))
    (mkDom (without_node (node a) (body_children d) ++ [node a]) (next_node d)
           (object_urls d) (next_url d) (journal d)).

Fixpoint resolve_url (u : N) (store : list (N * Blob)) : option Blob :=
  match store with
  | [] => None
  | (v, b) :: rest => if N.eqb u v then Some b else resolve_url u rest
  end.

(** [a.click()] on an anchor with a [download] attribute: the browser
    saves what the [href] resolves to under the suggested name. *)
Definition click (a : Anchor) (d : Dom) : Dom :=
  let target :=
    match href a with
    | Some u => resolve_url u (object_urls d)
    | None => None
    end in
  log (E_click (node a) (download a) target) d.

(** [window.URL.revokeObjectURL(url)] *)
Definition revokeObjectURL (u : N) (d : Dom) : Dom :=
  log (E_revokeObjectURL u)
    (mkDom (body_children d) (next_node d)
           (filter (fun e => negb (N.eqb u (fst e))) (object_urls d))
           (next_url d) (journal d)).

(** [document.body.removeChild(a)]: [None] stands for the NotFoundError
    thrown when [a] is not a child of the body. *)
Definition removeChild (a : Anchor) (d : Dom) : option Dom :=
  if mem_node (node a) (body_children d) then
    Some (log (E_removeChild (node a))
            (mkDom (without_node (node a) (body_children d)) (next_node d)
                   (object_urls d) (next_url d) (journal d)))
  else None.

(** The five browser calls of a download, in program order. *)
Definition download_effects (d : Dom) (blob : Blob) (filename : jsstring)
  : list Effect :=
  [ E_createObjectURL (next_url d);
    E_appendChild (next_node d);
    E_click (next_node d) filename (Some blob);
    E_revokeObjectURL (next_url d);
    E_removeChild (next_node d) ].

(** The browser once the five calls have run. *)
Definition after_download (d : Dom) (blob : Blob) (filename : jsstring) : Dom :=
  mkDom (without_node (next_node d) (body_children d))
        (N.succ (next_node d))
        (filter (fun e => negb (N.eqb (next_url d) (fst e))) (object_urls d))
        (N.succ (next_url d))
        (journal d ++ download_effects d blob filename).

(** Identities handed out so far are below the counters. *)
Definition dom_wf (d : Dom) : Prop :=
  Forall (fun n => (n < next_node d)%N) (body_children d)
  /\ Forall (fun e => (fst e < next_url d)%N) (object_urls d).

(** The files saved so far: suggested name and content. *)
Fixpoint saved_files (j : list Effect) : list (jsstring * option Blob) :=
  match j with
  | [] => []
  | E_click _ name target :: rest => (name, target) :: saved_files rest
  | _ :: rest => saved_files rest
  end.

End Browser.
Import Browser.

(* ===================================================================== *)
(** * The React client ([src/App.jsx]) *)
(* ===================================================================== *)

Module Client.

Import MonadNotation.
Local Open Scope monad_scope.

(** ** State *)

Definition COURSES : list jsstring :=
  [ lit "AI Product Development Fundamentals";
    lit "Building AI-Powered Applications";
    lit "Prompt Engineering & LLM Integration";
    lit "Full-Stack AI Development";
    lit "AI Product Design & UX";
    lit "Digital Profile Creation";
    lit "Deploying AI Solutions" ].

Inductive Tab : Type := TabMarkdown | TabCertificate.

Record CertForm : Type := mkCertForm {
  participant_name : jsstring;
  course_name : jsstring;
  completion_date : jsstring;
  instructor_name : jsstring
}.

(** The property names [updateCertField] is called with. *)
Inductive CertField : Type :=
| F_participant_name | F_course_name | F_completion_date | F_instructor_name.

Definition field_name (f : CertField) : jsstring :=
  match f with
  | F_participant_name => lit "participant_name"
  | F_course_name => lit "course_name"
  | F_completion_date => lit "completion_date"
  | F_instructor_name => lit "instructor_name"
  end.

(** The own properties of the [certForm] object, in insertion order. *)
Definition certForm_properties (c : CertForm) : list (jsstring * jsstring) :=
  [ (field_name F_participant_name, participant_name c);
    (field_name F_course_name, course_name c);
    (field_name F_completion_date, completion_date c);
    (field_name F_instructor_name, instructor_name c) ].

(** [{ ...prev, [field]: value }] *)
Definition spread_with (prev : CertForm) (f : CertField) (value : jsstring)
  : CertForm :=
  match f with
  | F_participant_name =>
      mkCertForm value (course_name prev) (completion_date prev)
                 (instructor_name prev)
  | F_course_name =>
      mkCertForm (participant_name prev) value (completion_date prev)
                 (instructor_name prev)
  | F_completion_date =>
      mkCertForm (participant_name prev) (course_name prev) value
                 (instructor_name prev)
  | F_instructor_name =>
      mkCertForm (participant_name prev) (course_name prev)
                 (completion_date prev) value
  end.

(** The [useState] cells of [App]. *)
Record AppState : Type := mkAppState {
  activeTab : Tab;
  markdown : jsstring;
  isConverting : bool;
  error : option jsstring;
  certForm : CertForm;
  isGenerating : bool;
  certError : option jsstring;
  certSuccess : bool
}.

Definition DEFAULT_INSTRUCTOR : jsstring := lit "IntelliForge AI Team".

(** The first render.  [welcome] is the sample document the editor starts
    with and [today] the value of
    [new Date().toISOString().split('T')[0]]; nothing below depends on
    either. *)
Definition initial_state (welcome today : jsstring) : AppState :=
  mkAppState TabMarkdown welcome false None
             (mkCertForm [] [] today DEFAULT_INSTRUCTOR) false None false.

(** A [fetch] call. *)
Record Request : Type := mkRequest {
  url : jsstring;
  method : jsstring;
  headers : list (jsstring * jsstring);
  body : jsstring
}.

(** The three [await] points of a handler. *)
Inductive Await : Type :=
| AwaitFetch                 (* await fetch(...) *)
| AwaitJson (status : N)     (* await response.json().catch(...) *)
| AwaitBlob.                 (* await response.blob() *)

Record World : Type := mkWorld {
  env_PROD : bool;                       (* import.meta.env.PROD *)
  react : AppState;
  dom : Dom;
  network : list Request;                (* requests sent, oldest first *)
  convTasks : list Await;                (* suspended runs of convertToPdf *)
  certTasks : list (CertForm * Await)    (* suspended runs of
                                            generateCertificate, each with
                                            the certForm it closed over *)
}.

Definition with_react (f : AppState -> AppState) (w : World) : World :=
  mkWorld (env_PROD w) (f (react w)) (dom w) (network w) (convTasks w)
          (certTasks w).

Definition with_dom (f : Dom -> Dom) (w : World) : World :=
  mkWorld (env_PROD w) (react w) (f (dom w)) (network w) (convTasks w)
          (certTasks w).

Definition with_convTasks (l : list Await) (w : World) : World :=
  mkWorld (env_PROD w) (react w) (dom w) (network w) l (certTasks w).

Definition with_certTasks (l : list (CertForm * Await)) (w : World) : World :=
  mkWorld (env_PROD w) (react w) (dom w) (network w) (convTasks w) l.

(** ** The handler monad: state, exceptions and suspension *)

Record JsError : Type := Error { message : jsstring }.

Inductive Completion (A : Type) : Type :=
| Normal (a : A)
| Thrown (e : JsError)
| Suspended (p : Await).
Arguments Normal {A} a.
Arguments Thrown {A} e.
Arguments Suspended {A} p.

Definition Handler (A : Type) : Type := World -> Completion A * World.

#[global] Instance Monad_Handler : Monad Handler := {
  ret := fun A (a : A) w => (Normal a, w);
  bind := fun A B (c : Handler A) (k : A -> Handler B) w =>
    match c w with
    | (Normal a, w') => k a w'
    | (Thrown e, w') => (Thrown e, w')
    | (Suspended p, w') => (Suspended p, w')
    end
}.

Definition throw {A : Type} (e : JsError) : Handler A :=
  fun w => (Thrown e, w).

(** [await]: the run stops here; it is resumed with the settlement of the
    awaited promise. *)
Definition await (p : Await) : Handler unit :=
  fun w => (Suspended p, w).

Definition update (f : World -> World) : Handler unit :=
  fun w => (Normal tt, f w).

(** [try { body } catch (err) { handler } finally { finalizer }].  A body
    that suspends is still inside the [try]: its resumption is wrapped in
    the same construct. *)
Definition try_catch_finally (body : Handler unit)
    (handler : JsError -> Handler unit) (finalizer : Handler unit)
  : Handler unit :=
  fun w =>
    match body w with
    | (Normal _, w1) => finalizer w1
    | (Thrown e, w1) =>
        match handler e w1 with
        | (Thrown e', w2) =>
            match finalizer w2 with
            | (Normal _, w3) => (Thrown e', w3)
            | r => r
            end
        | (_, w2) => finalizer w2
        end
    | (Suspended p, w1) => (Suspended p, w1)
    end.

(** ** State setters and browser calls *)

Definition setActiveTab (t : Tab) : Handler unit :=
  update (with_react (fun s =>
    mkAppState t (markdown s) (isConverting s) (error s) (certForm s)
               (isGenerating s) (certError s) (certSuccess s))).

Definition setMarkdown (v : jsstring) : Handler unit :=
  update (with_react (fun s =>
    mkAppState (activeTab s) v (isConverting s) (error s) (certForm s)
               (isGenerating s) (certError s) (certSuccess s))).

Definition setIsConverting (b : bool) : Handler unit :=
  update (with_react (fun s =>
    mkAppState (activeTab s) (markdown s) b (error s) (certForm s)
               (isGenerating s) (certError s) (certSuccess s))).

Definition setError (e : option jsstring) : Handler unit :=
  update (with_react (fun s =>
    mkAppState (activeTab s) (markdown s) (isConverting s) e (certForm s)
               (isGenerating s) (certError s) (certSuccess s))).

Definition setCertForm (f : CertForm -> CertForm) : Handler unit :=
  update (with_react (fun s =>
    mkAppState (activeTab s) (markdown s) (isConverting s) (error s)
               (f (certForm s)) (isGenerating s) (certError s)
               (certSuccess s))).

Definition setIsGenerating (b : bool) : Handler unit :=
  update (with_react (fun s =>
    mkAppState (activeTab s) (markdown s) (isConverting s) (error s)
               (certForm s) b (certError s) (certSuccess s))).

Definition setCertError (e : option jsstring) : Handler unit :=
  update (with_react (fun s =>
    mkAppState (activeTab s) (markdown s) (isConverting s) (error s)
               (certForm s) (isGenerating s) e (certSuccess s))).

Definition setCertSuccess (b : bool) : Handler unit :=
  update (with_react (fun s =>
    mkAppState (activeTab s) (markdown s) (isConverting s) (error s)
               (certForm s) (isGenerating s) (certError s) b)).

Definition console_error (label : jsstring) (err : JsError) : Handler unit :=
  update (with_dom (log (E_console_error label (message err)))).

(** [fetch(url, init)]: the request leaves; the promise is awaited by the
    caller. *)
Definition fetch (r : Request) : Handler unit :=
  update (fun w =>
    mkWorld (env_PROD w) (react w) (dom w) (network w ++ [r]) (convTasks w)
            (certTasks w)).

Definition api_url (w : World) (path : jsstring) : jsstring :=
  if env_PROD w then path else lit "http://localhost:8000" ++ path.

Definition getApiUrl (path : jsstring) : Handler jsstring :=
  fun w => (Normal (api_url w path), w).

Definition dom_call {A : Type} (f : Dom -> A * Dom) : Handler A :=
  fun w => let (a, d) := f (dom w) in (Normal a, with_dom (fun _ => d) w).

Definition NotFoundError : JsError :=
  Error (lit "The node to be removed is not a child of this node.").

Definition body_removeChild (a : Anchor) : Handler unit :=
  fun w =>
    match removeChild a (dom w) with
    | Some d => (Normal tt, with_dom (fun _ => d) w)
    | None => (Thrown NotFoundError, w)
    end.

(** ** What the network answers *)

(** The value [response.json()] resolves to, as far as the handlers look
    at it.  [ED_null m]: [null], on which reading [.detail] throws a
    TypeError with the engine's message [m].  [ED_value d]: any other
    value; [d] is [Some s] when its [detail] is truthy and [s] is what
    [new Error(detail)] stores as message, [None] when [detail] is falsy
    or missing. *)
Inductive ErrorData : Type :=
| ED_null (engine_message : jsstring)
| ED_value (detail : option jsstring).

(** How each awaited promise can settle. *)
Inductive FetchResult : Type :=
| FetchRejected (reason : jsstring)   (* no response: network failure *)
| FetchResponse (status : N).

Inductive JsonResult : Type :=
| JsonRejected                        (* the body is not JSON *)
| JsonResolved (v : ErrorData).

Inductive BlobResult : Type :=
| BlobRejected (reason : jsstring)
| BlobResolved (b : Blob).

Inductive Settlement : Type :=
| OfFetch (r : FetchResult)
| OfJson (r : JsonResult)
| OfBlob (r : BlobResult).

(** [response.ok] *)
Definition response_ok (status : N) : bool :=
  ((200 <=? status) && (status <=? 299))%N.

(** ** The handlers *)

(** Lines 85-88 and 124-127, after [response.json()] has settled:
    [throw new Error(errorData.detail || `Server error: ${response.status}`)] *)
Definition throw_response_error (errorData : ErrorData) (status : N)
  : Handler unit :=
  match errorData with
  | ED_null m => throw (Error m)
  | ED_value (Some d) => throw (Error d)
  | ED_value None =>
      throw (Error (lit "Server error: " ++ number_to_string status))
  end.

(** Lines 91-98 and 130-137: the download of [blob] under [filename]. *)
Definition save_blob (blob : Blob) (filename : jsstring) : Handler unit :=
  url <- dom_call (createObjectURL blob) ;;
  a <- dom_call createElement_a ;;
  let a := mkAnchor (node a) (Some url) (download a) in
  let a := mkAnchor (node a) (href a) filename in
  update (with_dom (appendChild a)) ;;
  update (with_dom (click a)) ;;
  update (with_dom (revokeObjectURL url)) ;;
  body_removeChild a.

Definition EXPORT_NAME : jsstring := lit "markdown-export.pdf".

Definition convert_request_properties (markdown : jsstring)
  : list (jsstring * jsstring) :=
  [ (lit "markdown", markdown); (lit "filename", EXPORT_NAME) ].

Definition json_headers : list (jsstring * jsstring) :=
  [ (lit "Content-Type", lit "application/json") ].

(** The [init] argument of the two [fetch] calls. *)
Definition convert_request (api markdown : jsstring) : Request :=
  mkRequest api (lit "POST") json_headers
            (JSON_stringify (convert_request_properties markdown)).

Definition certificate_request (api : jsstring) (certForm : CertForm)
  : Request :=
  mkRequest api (lit "POST") json_headers
            (JSON_stringify (certForm_properties certForm)).

Definition convert_catch (err : JsError) : Handler unit :=
  console_error (lit "Error converting to PDF:") err ;;
  setError (Some (message err)).

Definition convert_finally : Handler unit := setIsConverting false.

(** [convertToPdf], from the call to its first [await].  [markdown] is the
    editor text of the render the handler belongs to. *)
Definition convertToPdf (markdown : jsstring) : Handler unit :=
  setIsConverting true ;;
  setError None ;;
  try_catch_finally
    (api <- getApiUrl (lit "/api/convert") ;;
     fetch (convert_request api markdown) ;;
     await AwaitFetch)
    convert_catch convert_finally.

(** [convertToPdf] from an [await] on, once the awaited promise has
    settled.  A settlement of another kind than the awaited one cannot
    happen; the run then stays where it is. *)
Definition convertToPdf_resume (p : Await) (s : Settlement) : Handler unit :=
  try_catch_finally
    (match p, s with
     | AwaitFetch, OfFetch (FetchRejected reason) => throw (Error reason)
     | AwaitFetch, OfFetch (FetchResponse status) =>
         if negb (response_ok status) then await (AwaitJson status)
         else await AwaitBlob
     | AwaitJson status, OfJson JsonRejected =>
         throw_response_error (ED_value (Some (lit "Unknown error"))) status
     | AwaitJson status, OfJson (JsonResolved errorData) =>
         throw_response_error errorData status
     | AwaitBlob, OfBlob (BlobRejected reason) => throw (Error reason)
     | AwaitBlob, OfBlob (BlobResolved blob) => save_blob blob EXPORT_NAME
     | _, _ => await p
     end)
    convert_catch convert_finally.

Definition certificate_filename (name : jsstring) : jsstring :=
  lit "Certificate_" ++ replace_whitespace_runs name ++ lit ".pdf".

Definition certificate_catch (err : JsError) : Handler unit :=
  console_error (lit "Error generating certificate:") err ;;
  setCertError (Some (message err)).

Definition certificate_finally : Handler unit := setIsGenerating false.

Definition MSG_NAME : jsstring := lit "Please enter participant name".
Definition MSG_COURSE : jsstring := lit "Please select a course".
Definition MSG_DATE : jsstring := lit "Please select a date".

Definition throw_if (cond : bool) (msg : jsstring) : Handler unit :=
  if cond then throw (Error msg) else ret tt.

(** [generateCertificate], from the call to its first [await].
    [certForm] is the form object of the render the handler belongs to;
    [e.preventDefault()] only keeps the browser from navigating. *)
Definition generateCertificate (certForm : CertForm) : Handler unit :=
  setIsGenerating true ;;
  setCertError None ;;
  setCertSuccess false ;;
  try_catch_finally
    (throw_if (negb (truthy (trim (participant_name certForm)))) MSG_NAME ;;
     throw_if (negb (truthy (course_name certForm))) MSG_COURSE ;;
     throw_if (negb (truthy (completion_date certForm))) MSG_DATE ;;
     api <- getApiUrl (lit "/api/certificate") ;;
     fetch (certificate_request api certForm) ;;
     await AwaitFetch)
    certificate_catch certificate_finally.

Definition generateCertificate_resume (certForm : CertForm) (p : Await)
    (s : Settlement) : Handler unit :=
  try_catch_finally
    (match p, s with
     | AwaitFetch, OfFetch (FetchRejected reason) => throw (Error reason)
     | AwaitFetch, OfFetch (FetchResponse status) =>
         if negb (response_ok status) then await (AwaitJson status)
         else await AwaitBlob
     | AwaitJson status, OfJson JsonRejected =>
         throw_response_error (ED_value (Some (lit "Unknown error"))) status
     | AwaitJson status, OfJson (JsonResolved errorData) =>
         throw_response_error errorData status
     | AwaitBlob, OfBlob (BlobRejected reason) => throw (Error reason)
     | AwaitBlob, OfBlob (BlobResolved blob) =>
         save_blob blob (certificate_filename (participant_name certForm)) ;;
         setCertSuccess true
     | _, _ => await p
     end)
    certificate_catch certificate_finally.

(** [updateCertField] *)
Definition updateCertField (field : CertField) (value : jsstring)
  : Handler unit :=
  setCertForm (fun prev => spread_with prev field value) ;;
  setCertError None ;;
  setCertSuccess false.

(** ** The worlds a handler segment ends in *)

(** The message of the error thrown for a response that is not ok. *)
Definition response_error_message (r : JsonResult) (status : N) : jsstring :=
  match r with
  | JsonRejected => lit "Unknown error"
  | JsonResolved (ED_null m) => m
  | JsonResolved (ED_value (Some d)) => d
  | JsonResolved (ED_value None) =>
      lit "Server error: " ++ number_to_string status
  end.

Definition conv_started (md : jsstring) (w : World) : World :=
  snd (fetch (convert_request (api_url w (lit "/api/convert")) md)
         (snd (setError None (snd (setIsConverting true w))))).

Definition conv_failed (msg : jsstring) (w : World) : World :=
  snd (convert_finally (snd (convert_catch (Error msg) w))).

Definition conv_saved (blob : Blob) (w : World) : World :=
  snd (convert_finally
         (with_dom (fun d => after_download d blob EXPORT_NAME) w)).

Definition cert_cleared (w : World) : World :=
  snd (setCertSuccess false (snd (setCertError None
         (snd (setIsGenerating true w))))).

Definition cert_started (form : CertForm) (w : World) : World :=
  snd (fetch (certificate_request (api_url w (lit "/api/certificate")) form)
         (cert_cleared w)).

Definition cert_failed (msg : jsstring) (w : World) : World :=
  snd (certificate_finally (snd (certificate_catch (Error msg) w))).

Definition cert_saved (form : CertForm) (blob : Blob) (w : World) : World :=
  snd (certificate_finally
         (snd (setCertSuccess true
                 (with_dom (fun d =>
                    after_download d blob
                      (certificate_filename (participant_name form))) w)))).

(** The first required field that is missing, with its message. *)
Definition first_missing (form : CertForm) : option jsstring :=
  if negb (truthy (trim (participant_name form))) then Some MSG_NAME
  else if negb (truthy (course_name form)) then Some MSG_COURSE
  else if negb (truthy (completion_date form)) then Some MSG_DATE
  else None.

(** ** The view: what is rendered and so can receive events *)

(** [disabled={isConverting}] on the download button. *)
Definition download_btn_disabled (s : AppState) : bool := isConverting s.

(** [disabled={isGenerating}] on the certificate submit button. *)
Definition cert_submit_btn_disabled (s : AppState) : bool := isGenerating s.

(** The [value]s of the options of the course [select]. *)
Definition course_options : list jsstring := [] :: COURSES.

(** Line 323 of the preview card: the instructor shown, not the one
    sent. *)
Definition preview_instructor (c : CertForm) : jsstring :=
  if truthy (instructor_name c) then instructor_name c
  else DEFAULT_INSTRUCTOR.

Definition tab_eqb (a b : Tab) : bool :=
  match a, b with
  | TabMarkdown, TabMarkdown | TabCertificate, TabCertificate => true
  | _, _ => false
  end.

(** ** The event loop *)

Inductive Event : Type :=
| ClickTab (t : Tab)
| EditMarkdown (value : jsstring)            (* onChange of the editor *)
| ClickDownload                              (* click on the download button *)
| EditCertField (f : CertField) (value : jsstring)
| SubmitCertForm                             (* the submit event reaching
                                                [onSubmit]; the browser
                                                withholds it while a
                                                [required] input is empty,
                                                which is not modelled: the
                                                loop admits every submission
                                                the page admits, and more *)
| SettleConvert (k : nat) (s : Settlement)   (* a promise awaited by the
                                                k-th suspended run settles *)
| SettleCertificate (k : nat) (s : Settlement).

(** The value an input can hand to [updateCertField]: the course comes
    from a [select], so it is one of its option values. *)
Definition input_accepts (f : CertField) (value : jsstring) : bool :=
  match f with
  | F_course_name => existsb (jsstring_eqb value) course_options
  | _ => true
  end.

Fixpoint replace_nth {A : Type} (k : nat) (x : A) (l : list A) : list A :=
  match l, k with
  | [], _ => []
  | _ :: r, O => x :: r
  | y :: r, S k' => y :: replace_nth k' x r
  end.

Fixpoint remove_nth {A : Type} (k : nat) (l : list A) : list A :=
  match l, k with
  | [], _ => []
  | _ :: r, O => r
  | y :: r, S k' => y :: remove_nth k' r
  end.

(** One event, handled to completion or to the next [await].  React
    renders between events, so every handler sees the state the previous
    event left, and a disabled button receives no click. *)
Definition step (w : World) (ev : Event) : World :=
  match ev with
  | ClickTab t => snd (setActiveTab t w)
  | EditMarkdown v =>
      if tab_eqb (activeTab (react w)) TabMarkdown
      then snd (setMarkdown v w) else w
  | ClickDownload =>
      if tab_eqb (activeTab (react w)) TabMarkdown
         && negb (download_btn_disabled (react w))
      then
        match convertToPdf (markdown (react w)) w with
        | (Suspended p, w') => with_convTasks (convTasks w' ++ [p]) w'
        | (_, w') => w'
        end
      else w
  | EditCertField f v =>
      if tab_eqb (activeTab (react w)) TabCertificate && input_accepts f v
      then snd (updateCertField f v w) else w
  | SubmitCertForm =>
      if tab_eqb (activeTab (react w)) TabCertificate
         && negb (cert_submit_btn_disabled (react w))
      then
        let form := certForm (react w) in
        match generateCertificate form w with
        | (Suspended p, w') => with_certTasks (certTasks w' ++ [(form, p)]) w'
        | (_, w') => w'
        end
      else w
  | SettleConvert k s =>
      match nth_error (convTasks w) k with
      | Some p =>
          match convertToPdf_resume p s w with
          | (Suspended p', w') =>
              with_convTasks (replace_nth k p' (convTasks w')) w'
          | (_, w') => with_convTasks (remove_nth k (convTasks w')) w'
          end
      | None => w
      end
  | SettleCertificate k s =>
      match nth_error (certTasks w) k with
      | Some (form, p) =>
          match generateCertificate_resume form p s w with
          | (Suspended p', w') =>
              with_certTasks (replace_nth k (form, p') (certTasks w')) w'
          | (_, w') => with_certTasks (remove_nth k (certTasks w')) w'
          end
      | None => w
      end
  end.

Definition run (w : World) (evs : list Event) : World := fold_left step evs w.

Definition initial_dom (page : list N) : Dom :=
  mkDom page (N.succ (fold_right N.max 0%N page)) [] 0%N [].

(** The page after the first render: [page] are the nodes the document
    body holds then. *)
Definition initial_world (prod : bool) (welcome today : jsstring)
    (page : list N) : World :=
  mkWorld prod (initial_state welcome today) (initial_dom page) [] [] [].

Inductive reachable (w0 : World) : World -> Prop :=
| reach_init : reachable w0 w0
| reach_step : forall w ev, reachable w0 w -> reachable w0 (step w ev).

(** ** The busy flags against the suspended runs *)

(** A form is idle with no run pending, or busy with exactly one. *)
Definition flag_matches {T : Type} (busy : bool) (tasks : list T) : Prop :=
  match tasks with
  | [] => busy = false
  | [_] => busy = true
  | _ :: _ :: _ => False
  end.

Definition flow_invariant (w : World) : Prop :=
  flag_matches (isConverting (react w)) (convTasks w)
  /\ flag_matches (isGenerating (react w)) (certTasks w).

(** ** The courses that reach the network *)

(** A request of [convertToPdf], or one of [generateCertificate] whose
    form names an enumerated course. *)
Definition well_formed_request (rq : Request) : Prop :=
  (exists api md, rq = convert_request api md)
  \/ (exists api form,
        rq = certificate_request api form /\ In (course_name form) COURSES).

Definition course_invariant (w : World) : Prop :=
  In (course_name (certForm (react w))) course_options
  /\ Forall well_formed_request (network w).

(** ** A handler run from the call to its end *)

(** How each promise a run awaits will settle. *)
Record Script : Type := mkScript {
  on_fetch : FetchResult;
  on_json : JsonResult;
  on_blob : BlobResult
}.

Definition settlement_for (sc : Script) (p : Await) : Settlement :=
  match p with
  | AwaitFetch => OfFetch (on_fetch sc)
  | AwaitJson _ => OfJson (on_json sc)
  | AwaitBlob => OfBlob (on_blob sc)
  end.

(** Resume a run at every [await] it reaches, at most [fuel] times. *)
Fixpoint drive (resume : Await -> Settlement -> Handler unit) (sc : Script)
    (fuel : nat) (r : Completion unit * World) : Completion unit * World :=
  match fuel, r with
  | S fuel', (Suspended p, w) =>
      drive resume sc fuel' (resume p (settlement_for sc p) w)
  | _, _ => r
  end.

Definition run_convertToPdf (sc : Script) (w : World)
  : Completion unit * World :=
  drive convertToPdf_resume sc 2 (convertToPdf (markdown (react w)) w).

Definition run_generateCertificate (sc : Script) (w : World)
  : Completion unit * World :=
  let form := certForm (react w) in
  drive (generateCertificate_resume form) sc 2 (generateCertificate form w).

(** ** What is on display while a form is busy *)

(** No message is shown on a busy form, and the certificate form never
    shows its error and its success together. *)
Definition display_invariant (w : World) : Prop :=
  (isConverting (react w) = true -> error (react w) = None)
  /\ (isGenerating (react w) = true ->
      certError (react w) = None /\ certSuccess (react w) = false)
  /\ (certSuccess (react w) = true -> certError (react w) = None).

(** Every saved file and every suspended run has its request. *)
Definition accounted (w : World) : Prop :=
  length (saved_files (journal (dom w))) + length (convTasks w)
  + length (certTasks w) <= length (network w).

(** ** The message boxes and the preview card *)

(** [{error && (<div className="error-message">...)}]: the box is
    rendered when [error] is truthy. *)
Definition box_visible (message : option jsstring) : bool :=
  match message with
  | Some m => truthy m
  | None => false
  end.

(** [a || b] on strings. *)
Definition or_else (a b : jsstring) : jsstring := if truthy a then a else b.

(** Lines 305, 310 and 317 of the preview card. *)
Definition preview_participant (c : CertForm) : jsstring :=
  or_else (participant_name c) (lit "Participant Name").

Definition preview_course (c : CertForm) : jsstring :=
  or_else (course_name c) (lit "Select a course").

Definition preview_date (c : CertForm) : jsstring :=
  or_else (completion_date c) [0x2014%N].

(** Every suspended certificate run and every saved certificate goes
    back to a request that was sent. *)
Definition sent_form (w : World) (form : CertForm) : Prop :=
  In (certificate_request (api_url w (lit "/api/certificate")) form)
     (network w).

Definition traceable (w : World) : Prop :=
  Forall (fun t => sent_form w (fst t)) (certTasks w)
  /\ Forall (fun f =>
       snd f <> None
       /\ (fst f = EXPORT_NAME
           \/ exists form,
                sent_form w form
                /\ fst f = certificate_filename (participant_name form)))
     (saved_files (journal (dom w))).

End Client.
Import Client.

(* ===================================================================== *)
(** * The backend *)
(* ===================================================================== *)

Module Server.

(** A template with [{content}] replacement fields, as [str.format]
    reads it. *)
Inductive Segment : Type :=
| Text (s : jsstring)
| ContentField.

Definition Template : Type := list Segment.

(** [template.format(content=html)] *)
Definition format (template : Template) (html : jsstring) : jsstring :=
  concat (map (fun seg => match seg with
                          | Text s => s
                          | ContentField => html
                          end) template).

Inductive Payload : Type :=
| Bytes (b : Blob)
| JsonObject (properties : list (jsstring * jsstring)).

Record Response : Type := mkResponse {
  status_code : N;
  media_type : jsstring;
  attachment : option jsstring;   (* the file name of Content-Disposition *)
  content : Payload
}.

(** Modelled from the spec: the declaration of [MarkdownRequest]
    ([api/index.py]) is missing from the sources; section 6 gives its
    fields, [markdown] and an optional [filename]. *)
Record MarkdownRequest : Type := mkMarkdownRequest {
  req_markdown : jsstring;
  req_filename : option jsstring
}.

(** Modelled from the spec: the certificate payload of sections 3 and 6
    once validated; its declaration is missing from the sources. *)
Record CertificateRequest : Type := mkCertificateRequest {
  req_participant_name : jsstring;
  req_course_name : jsstring;
  req_completion_date : jsstring;
  req_instructor_name : jsstring
}.

(** Modelled from the spec: the JSON bodies of section 6 before
    validation, where a property may be absent. *)
Record ConvertBody : Type := mkConvertBody {
  body_markdown : option jsstring;
  body_filename : option jsstring
}.

Record CertificateBody : Type := mkCertificateBody {
  body_participant_name : option jsstring;
  body_course_name : option jsstring;
  body_completion_date : option jsstring;
  body_instructor_name : option jsstring
}.

(** Modelled from the spec: section 8, a field is missing when it is
    absent or the empty string. *)
Definition missing (v : option jsstring) : bool :=
  match v with
  | None | Some [] => true
  | Some (_ :: _) => false
  end.

Definition given (v : option jsstring) : jsstring :=
  match v with
  | Some s => s
  | None => []
  end.

Definition in_courses (courses : list jsstring) (c : jsstring) : bool :=
  existsb (jsstring_eqb c) courses.

Section Endpoints.

(** The external collaborators. *)
Variable markdown_convert : jsstring -> jsstring.   (* markdown to HTML *)
Variable Ambient : Type.     (* what the PDF engine reads besides its
                                input: the clock it may stamp with *)
Variable pisa_CreatePDF : Ambient -> jsstring -> Blob.
                             (* the bytes written to [dest] *)

(** Constants of [api/index.py], which is not among the sources. *)
Variable HTML_TEMPLATE : Template.
Variable validation_status : N.
Variable validation_detail : jsstring -> jsstring.
Variable certificate_html : CertificateRequest -> jsstring.
Variable certificate_attachment : jsstring -> jsstring.

(** The handler of POST /api/convert as the architecture notes give it
    (steps 1 to 5).  The second component lists the documents handed to
    the PDF engine. *)
Definition convert (amb : Ambient) (request : MarkdownRequest)
  : Response * list jsstring :=
  let html := markdown_convert (req_markdown request) in
  let styled_html := format HTML_TEMPLATE html in
  let pdf_buffer := pisa_CreatePDF amb styled_html in
  (mkResponse 200 (lit "application/pdf") None (Bytes pdf_buffer),
   [styled_html]).

Definition validation_error (field : jsstring) : Response :=
  mkResponse validation_status (lit "application/json") None
    (JsonObject [(lit "detail", validation_detail field)]).

(** Modelled from the spec: the declaration of [MarkdownRequest] and
    the validation that runs on the request body before [convert]
    ([api/index.py]) are missing from the sources.  Sections 4.2 and 8:
    a body whose [markdown] is absent or the empty string is rejected
    with a client error whose JSON body has a [detail]. *)
Definition validate_MarkdownRequest (b : ConvertBody)
  : MarkdownRequest + jsstring :=
  if missing (body_markdown b) then inr (lit "markdown")
  else inl (mkMarkdownRequest (given (body_markdown b)) (body_filename b)).

(** Modelled from the spec: the endpoint is the validation followed by
    the handler. *)
Definition post_api_convert (amb : Ambient) (b : ConvertBody)
  : Response * list jsstring :=
  match validate_MarkdownRequest b with
  | inl request => convert amb request
  | inr field => (validation_error field, [])
  end.

(** Modelled from the spec: the certificate endpoint ([api/index.py])
    is missing from the sources.  Section 4.3: all required fields are
    present and the course is one of the enumerated set, else a
    validation error; the instructor has a default. *)
Definition validate_CertificateRequest (courses : list jsstring)
    (b : CertificateBody) : CertificateRequest + jsstring :=
  if missing (body_participant_name b) then
    inr (field_name F_participant_name)
  else if missing (body_course_name b) then
    inr (field_name F_course_name)
  else if missing (body_completion_date b) then
    inr (field_name F_completion_date)
  else if negb (in_courses courses (given (body_course_name b))) then
    inr (field_name F_course_name)
  else
    inl (mkCertificateRequest
           (given (body_participant_name b))
           (given (body_course_name b))
           (given (body_completion_date b))
           (match body_instructor_name b with
            | Some i => i
            | None => DEFAULT_INSTRUCTOR
            end)).

(** Modelled from the spec: section 4.3, the values go into the
    certificate template, the renderer is called, and the bytes come
    back under a name derived from the participant name with its
    whitespace replaced. *)
Definition post_api_certificate (courses : list jsstring) (amb : Ambient)
    (b : CertificateBody) : Response * list jsstring :=
  match validate_CertificateRequest courses b with
  | inl request =>
      let html := certificate_html request in
      (mkResponse 200 (lit "application/pdf")
         (Some (certificate_attachment
                  (replace_whitespace_runs (req_participant_name request))))
         (Bytes (pisa_CreatePDF amb html)),
       [html])
  | inr field => (validation_error field, [])
  end.

End Endpoints.

Definition is_client_error (r : Response) : bool :=
  ((400 <=? status_code r) && (status_code r <=? 499))%N.

Definition has_detail (r : Response) : bool :=
  match content r with
  | JsonObject properties =>
      existsb (fun kv => jsstring_eqb (fst kv) (lit "detail")) properties
  | Bytes _ => false
  end.

End Server.
Import Server.

(* ===================================================================== *)
(** * The first generation of the export *)
(* ===================================================================== *)

(** The page arithmetic of the [convertToPdf] that rendered the preview to
    a canvas and cut it into A4 pages in the browser.  JavaScript numbers
    are doubles; the model is exact for the canvas sizes whose scaled
    height is a whole number of millimetres, where every value of the
    loop is an integer. *)
Module LegacyPdf.

Definition imgWidth : Z := 210.
Definition pageHeight : Z := 297.

(** [(canvas.height * imgWidth) / canvas.width], for canvas sizes that
    make it a whole number. *)
Definition image_height (canvas_width canvas_height : Z) : Z :=
  (canvas_height * imgWidth / canvas_width)%Z.

(** The [while (heightLeft >= 0)] loop: [positions] are the [y] of the
    [addImage] calls so far, one per page.  [None]: out of fuel. *)
Fixpoint more_pages (fuel : nat) (imgHeight heightLeft : Z)
    (positions : list Z) : option (list Z) :=
  match fuel with
  | O => None
  | S fuel' =>
      if (0 <=? heightLeft)%Z then
        more_pages fuel' imgHeight (heightLeft - pageHeight)%Z
                   (positions ++ [(heightLeft - imgHeight)%Z])
      else Some positions
  end.

(** The first page at position 0, then the loop. *)
Definition image_positions (fuel : nat) (imgHeight : Z) : option (list Z) :=
  more_pages fuel imgHeight (imgHeight - pageHeight)%Z [0%Z].

End LegacyPdf.
Import LegacyPdf.

(* ===================================================================== *)
(** * Properties *)
(* ===================================================================== *)

(** ** Strings *)

Lemma truthy_false_iff (s : jsstring) : truthy s = false <-> s = [].
Proof. destruct s; split; intro H; try reflexivity; discriminate H. Qed.

Lemma trimStart_nil_iff (s : jsstring) :
  trimStart s = [] <-> forallb is_whitespace s = true.
Proof.
  induction s as [|c r IH]; cbn; [tauto|].
  destruct (is_whitespace c); cbn; [exact IH|].
  split; intro H; discriminate H.
Qed.

Lemma trimStart_head (s : jsstring) (c : N) (r : jsstring) :
  trimStart s = c :: r -> is_whitespace c = false.
Proof.
  induction s as [|d t IH]; cbn; [discriminate|].
  destruct (is_whitespace d) eqn:Hd; [exact IH|].
  intro H; injection H as -> _; exact Hd.
Qed.

Lemma forallb_rev {A : Type} (f : A -> bool) (l : list A) :
  forallb f (rev l) = forallb f l.
Proof.
  induction l as [|a l IH]; cbn; [reflexivity|].
  rewrite forallb_app, IH; cbn. rewrite andb_true_r. apply andb_comm.
Qed.

(** A name is blank after trimming exactly when it holds nothing but
    whitespace. *)
Lemma trim_blank_iff (s : jsstring) :
  truthy (trim s) = false <-> forallb is_whitespace s = true.
Proof.
  rewrite truthy_false_iff. unfold trim, trimEnd.
  rewrite <- trimStart_nil_iff.
  destruct (trimStart s) as [|c r] eqn:Hs; cbn [rev]; [tauto|].
  pose proof (trimStart_head s c r Hs) as Hc.
  split; [|discriminate].
  intro H. apply (f_equal (@rev N)) in H. rewrite rev_involutive in H.
  cbn in H. apply trimStart_nil_iff in H.
  rewrite forallb_app in H. cbn in H. rewrite Hc in H.
  rewrite andb_false_r in H. discriminate H.
Qed.

(** The scan of [replace(/\s+/g, '_')] against the block reading of the
    specification. *)
Lemma replace_blocks_joint (s : jsstring) :
  replace_scan underscore s = underscore_per_run s
  /\ replace_run underscore s =
       match ws_blocks s with
       | (true, _) :: rest => concat (map block_image rest)
       | l => concat (map block_image l)
       end.
Proof.
  unfold underscore_per_run.
  induction s as [|c r [IHscan IHrun]]; [split; reflexivity|].
  cbn [replace_scan replace_run ws_blocks].
  rewrite IHscan, IHrun.
  destruct (ws_blocks r) as [|[b blk] rest]; destruct (is_whitespace c) eqn:Hc;
    try destruct b; cbn; auto.
Qed.

Lemma replace_whitespace_runs_spec (s : jsstring) :
  replace_whitespace_runs s = underscore_per_run s.
Proof. exact (proj1 (replace_blocks_joint s)). Qed.

(** [ws_blocks] is the cut into maximal runs: the blocks give the string
    back, each is non-empty and of one kind, and neighbours differ in
    kind. *)
Lemma ws_blocks_concat (s : jsstring) : concat (map snd (ws_blocks s)) = s.
Proof.
  induction s as [|c r IH]; [reflexivity|].
  cbn [ws_blocks]. destruct (ws_blocks r) as [|[b blk] rest].
  - cbn in *. now rewrite <- IH.
  - destruct (Bool.eqb b (is_whitespace c)); cbn in *; now rewrite <- IH.
Qed.

Lemma ws_blocks_uniform (s : jsstring) : Forall uniform_block (ws_blocks s).
Proof.
  induction s as [|c r IH]; [constructor|].
  cbn [ws_blocks]. destruct (ws_blocks r) as [|[b blk] rest].
  - repeat constructor; cbn; congruence.
  - inversion IH as [|? ? [Hne Hall] Hrest]; subst.
    destruct (Bool.eqb b (is_whitespace c)) eqn:Hb.
    + apply eqb_prop in Hb. constructor; [|assumption].
      split; cbn; [discriminate|]. constructor; [now symmetry|assumption].
    + constructor; [|assumption]. split; cbn; [discriminate|].
      repeat constructor.
Qed.

Lemma ws_blocks_alternating (s : jsstring) : alternating (ws_blocks s).
Proof.
  induction s as [|c r IH]; [exact I|].
  cbn [ws_blocks]. destruct (ws_blocks r) as [|[b blk] rest]; [exact I|].
  destruct (Bool.eqb b (is_whitespace c)) eqn:Hb.
  - destruct rest as [|b2 rest]; [exact I|]. exact IH.
  - split; [|exact IH]. cbn. apply eqb_false_iff in Hb. congruence.
Qed.

Lemma saved_files_app (j1 j2 : list Effect) :
  saved_files (j1 ++ j2) = saved_files j1 ++ saved_files j2.
Proof.
  induction j1 as [|e j1 IH]; [reflexivity|].
  destruct e; cbn; rewrite IH; reflexivity.
Qed.







(** ** The handlers, case by case *)

Lemma app_neq_self {A : Type} (l : list A) (x : A) : l ++ [x] <> l.
Proof.
  intro H. apply (f_equal (@length A)) in H.
  rewrite length_app in H. cbn in H. lia.
Qed.

Lemma truthy_true_iff (s : jsstring) : truthy s = true <-> s <> [].
Proof. destruct s; cbn; split; intro H; congruence. Qed.

Lemma generateCertificate_rejects (form : CertForm) (w : World) (msg : jsstring) :
  (trim (participant_name form) = [] /\ msg = MSG_NAME)
  \/ (trim (participant_name form) <> [] /\ course_name form = []
      /\ msg = MSG_COURSE)
  \/ (trim (participant_name form) <> [] /\ course_name form <> []
      /\ completion_date form = [] /\ msg = MSG_DATE) ->
  fst (generateCertificate form w) = Normal tt
  /\ network (snd (generateCertificate form w)) = network w
  /\ certError (react (snd (generateCertificate form w))) = Some msg
  /\ isGenerating (react (snd (generateCertificate form w))) = false.
Proof.
  unfold generateCertificate, try_catch_finally, throw_if.
  cbn -[truthy trim lit certificate_request].
  intros [[Hn ->]|[[Hn [Hc ->]]|[Hn [Hc [Hd ->]]]]].
  - apply truthy_false_iff in Hn. rewrite Hn. cbn. auto.
  - apply truthy_true_iff in Hn. apply truthy_false_iff in Hc.
    rewrite Hn, Hc. cbn. auto.
  - apply truthy_true_iff in Hn, Hc. apply truthy_false_iff in Hd.
    rewrite Hn, Hc, Hd. cbn. auto.
Qed.

Lemma generateCertificate_sends (form : CertForm) (w : World) :
  trim (participant_name form) <> [] -> course_name form <> [] ->
  completion_date form <> [] ->
  fst (generateCertificate form w) = Suspended AwaitFetch
  /\ network (snd (generateCertificate form w))
     = network w ++ [certificate_request (api_url w (lit "/api/certificate"))
                                         form]
  /\ isGenerating (react (snd (generateCertificate form w))) = true
  /\ certError (react (snd (generateCertificate form w))) = None
  /\ dom (snd (generateCertificate form w)) = dom w.
Proof.
  unfold generateCertificate, try_catch_finally, throw_if.
  cbn -[truthy trim lit certificate_request].
  intros Hn Hc Hd. apply truthy_true_iff in Hn, Hc, Hd.
  rewrite Hn, Hc, Hd. cbn -[lit certificate_request]. auto.
Qed.

(** C5. A certificate submission with a required field missing (the
    participant name blank once trimmed, the course empty, or the date
    empty) ends in the validation message of the first such field and
    sends nothing; a request leaves, to /api/certificate and carrying the
    form, exactly when the three required fields are non-empty. *)
Theorem certificate_required_fields (form : CertForm) (w : World) :
  let r := generateCertificate form w in
  let sent := network (snd r) in
  let shown := certError (react (snd r)) in
  (trim (participant_name form) = [] ->
     sent = network w /\ fst r = Normal tt
     /\ shown = Some (lit "Please enter participant name"))
  /\ (trim (participant_name form) <> [] -> course_name form = [] ->
     sent = network w /\ fst r = Normal tt
     /\ shown = Some (lit "Please select a course"))
  /\ (trim (participant_name form) <> [] -> course_name form <> [] ->
      completion_date form = [] ->
     sent = network w /\ fst r = Normal tt
     /\ shown = Some (lit "Please select a date"))
  /\ (sent <> network w <->
      trim (participant_name form) <> [] /\ course_name form <> []
      /\ completion_date form <> [])
  /\ (sent <> network w ->
      sent = network w
             ++ [mkRequest (api_url w (lit "/api/certificate")) (lit "POST")
                           [(lit "Content-Type", lit "application/json")]
                           (JSON_stringify (certForm_properties form))]).
Proof.
  intros r sent shown. subst r sent shown.
  assert (Hcases :
    (trim (participant_name form) = [])
    \/ (trim (participant_name form) <> [] /\ course_name form = [])
    \/ (trim (participant_name form) <> [] /\ course_name form <> []
        /\ completion_date form = [])
    \/ (trim (participant_name form) <> [] /\ course_name form <> []
        /\ completion_date form <> [])).
  { destruct (trim (participant_name form)); [now left|right].
    destruct (course_name form); [left; split; easy|right].
    destruct (completion_date form); [left|right]; repeat split; easy. }
  assert (Hquiet :
    (trim (participant_name form) <> [] /\ course_name form <> []
     /\ completion_date form <> [] -> False) ->
    network (snd (generateCertificate form w)) = network w).
  { intro Hno.
    destruct Hcases as [Hn|[[Hn Hc]|[[Hn [Hc Hd]]|Hall]]]; [| | |easy].
    - apply (generateCertificate_rejects form w MSG_NAME); auto.
    - apply (generateCertificate_rejects form w MSG_COURSE); auto.
    - apply (generateCertificate_rejects form w MSG_DATE); auto 10. }
  split; [|split; [|split; [|split]]].
  - intro Hn.
    destruct (generateCertificate_rejects form w MSG_NAME) as [? [? [? ?]]];
      auto.
  - intros Hn Hc.
    destruct (generateCertificate_rejects form w MSG_COURSE) as [? [? [? ?]]];
      auto.
  - intros Hn Hc Hd.
    destruct (generateCertificate_rejects form w MSG_DATE) as [? [? [? ?]]];
      auto 10.
  - split.
    + intro Hsent.
      destruct Hcases as [Hn|[[Hn Hc]|[[Hn [Hc Hd]]|Hall]]];
        [exfalso; apply Hsent, Hquiet; tauto ..|exact Hall].
    + intros [Hn [Hc Hd]].
      destruct (generateCertificate_sends form w Hn Hc Hd) as [_ [-> _]].
      apply app_neq_self.
  - intro Hsent.
    destruct Hcases as [Hn|[[Hn Hc]|[[Hn [Hc Hd]]|[Hn [Hc Hd]]]]];
      [exfalso; apply Hsent, Hquiet; tauto ..|].
    apply (generateCertificate_sends form w Hn Hc Hd).
Qed.

Lemma certificate_required_fields_witness :
  let w := initial_world true (lit "# Test") (lit "2026-01-01") [1%N] in
  let blank := mkCertForm (lit "   ") (lit "Full-Stack AI Development")
                          (lit "2026-01-01") DEFAULT_INSTRUCTOR in
  let full := mkCertForm (lit "Jane Doe") (lit "Full-Stack AI Development")
                         (lit "2026-01-01") DEFAULT_INSTRUCTOR in
  (network (snd (generateCertificate blank w)) = []
   /\ certError (react (snd (generateCertificate blank w)))
      = Some (lit "Please enter participant name"))
  /\ length (network (snd (generateCertificate full w))) = 1.
Proof.
  intros w blank full. split.
  - destruct (certificate_required_fields blank w) as [Hname _].
    destruct (Hname eq_refl) as [Hsent [_ Hshown]].
    split; [exact Hsent|exact Hshown].
  - destruct (certificate_required_fields full w) as [_ [_ [_ [Hiff Hreq]]]].
    assert (Hsent : network (snd (generateCertificate full w)) <> network w).
    { apply Hiff. repeat split; discriminate. }
    rewrite (Hreq Hsent). reflexivity.
Defined.

(** ** The download *)

Lemma mem_node_appended (n : N) (l : list N) : mem_node n (l ++ [n]) = true.
Proof.
  unfold mem_node. rewrite existsb_app. cbn.
  rewrite N.eqb_refl. now rewrite orb_true_r.
Qed.

Lemma without_node_fresh (n : N) (l : list N) :
  Forall (fun m => (m < n)%N) l -> without_node n l = l.
Proof.
  unfold without_node.
  induction 1 as [|m l Hm _ IH]; [reflexivity|].
  cbn. rewrite IH.
  destruct (N.eqb_spec n m); [lia|reflexivity].
Qed.

Lemma without_node_appended (n : N) (l : list N) :
  without_node n (l ++ [n]) = without_node n l.
Proof.
  unfold without_node. rewrite filter_app. cbn.
  rewrite N.eqb_refl. cbn. apply app_nil_r.
Qed.

Lemma without_node_idem (n : N) (l : list N) :
  without_node n (without_node n l) = without_node n l.
Proof.
  unfold without_node. induction l as [|m l IH]; [reflexivity|].
  cbn. destruct (negb (n =? m)%N) eqn:E; cbn; rewrite ?E, IH; reflexivity.
Qed.

Lemma revoke_fresh (u : N) (store : list (N * Blob)) :
  Forall (fun e => (fst e < u)%N) store ->
  filter (fun e => negb (N.eqb u (fst e))) store = store.
Proof.
  induction 1 as [|e l He _ IH]; [reflexivity|].
  cbn. rewrite IH.
  destruct (N.eqb_spec u (fst e)); [lia|reflexivity].
Qed.

Lemma resolve_url_fresh (u : N) (store : list (N * Blob)) :
  Forall (fun e => (fst e < u)%N) store -> resolve_url u store = None.
Proof.
  induction 1 as [|[v b] l Hv _ IH]; [reflexivity|].
  cbn in *. destruct (N.eqb_spec u v); [lia|exact IH].
Qed.

Lemma save_blob_eq (blob : Blob) (filename : jsstring) (w : World) :
  save_blob blob filename w
  = (Normal tt, with_dom (fun d => after_download d blob filename) w).
Proof.
  unfold save_blob, body_removeChild, removeChild.
  cbn -[mem_node without_node].
  rewrite mem_node_appended, without_node_appended.
  cbn -[without_node]. rewrite N.eqb_refl. cbn -[without_node].
  unfold with_dom, after_download, download_effects.
  cbn -[without_node].
  repeat rewrite <- app_assoc. cbn -[without_node].
  rewrite without_node_idem. unfold log. cbn -[without_node].
  repeat rewrite <- app_assoc. reflexivity.
Qed.

Lemma after_download_restores (d : Dom) (blob : Blob) (filename : jsstring) :
  dom_wf d ->
  body_children (after_download d blob filename) = body_children d
  /\ object_urls (after_download d blob filename) = object_urls d
  /\ dom_wf (after_download d blob filename).
Proof.
  intros [Hbody Hurls]. unfold after_download. cbn -[without_node].
  rewrite (without_node_fresh _ _ Hbody), (revoke_fresh _ _ Hurls).
  repeat split; cbn.
  - eapply Forall_impl; [|exact Hbody]. cbn. intros; lia.
  - eapply Forall_impl; [|exact Hurls]. cbn. intros; lia.
Qed.

Lemma convert_download_eq (blob : Blob) (w : World) :
  convertToPdf_resume AwaitBlob (OfBlob (BlobResolved blob)) w
  = (Normal tt,
     snd (setIsConverting false
            (with_dom (fun d => after_download d blob EXPORT_NAME) w))).
Proof.
  unfold convertToPdf_resume, try_catch_finally.
  rewrite save_blob_eq. reflexivity.
Qed.

Lemma certificate_download_eq (form : CertForm) (blob : Blob) (w : World) :
  generateCertificate_resume form AwaitBlob (OfBlob (BlobResolved blob)) w
  = (Normal tt,
     snd (setIsGenerating false
            (snd (setCertSuccess true
                    (with_dom (fun d =>
                       after_download d blob
                         (certificate_filename (participant_name form)))
                       w))))).
Proof.
  unfold generateCertificate_resume, try_catch_finally.
  cbn [bind Monad_Handler]. rewrite save_blob_eq. reflexivity.
Qed.


(** ** Closed forms of the handler segments *)

Lemma convertToPdf_eq (md : jsstring) (w : World) :
  convertToPdf md w = (Suspended AwaitFetch, conv_started md w).
Proof. reflexivity. Qed.

(** Every pair of an awaited promise and a settlement. *)
Ltac settle_cases p s :=
  destruct p, s as [[reason|st]|[|[m|[d|]]]|[reason|blob]].

Lemma convertToPdf_resume_eq (p : Await) (s : Settlement) (w : World) :
  convertToPdf_resume p s w =
  match p, s with
  | AwaitFetch, OfFetch (FetchRejected reason) =>
      (Normal tt, conv_failed reason w)
  | AwaitFetch, OfFetch (FetchResponse status) =>
      (Suspended (if response_ok status then AwaitBlob else AwaitJson status),
       w)
  | AwaitJson status, OfJson r =>
      (Normal tt, conv_failed (response_error_message r status) w)
  | AwaitBlob, OfBlob (BlobRejected reason) =>
      (Normal tt, conv_failed reason w)
  | AwaitBlob, OfBlob (BlobResolved blob) => (Normal tt, conv_saved blob w)
  | _, _ => (Suspended p, w)
  end.
Proof.
  settle_cases p s;
    try reflexivity.
  - unfold convertToPdf_resume, try_catch_finally.
    destruct (response_ok st); reflexivity.
  - apply convert_download_eq.
Qed.

Lemma generateCertificate_eq (form : CertForm) (w : World) :
  generateCertificate form w =
  match first_missing form with
  | Some msg => (Normal tt, cert_failed msg (cert_cleared w))
  | None => (Suspended AwaitFetch, cert_started form w)
  end.
Proof.
  unfold generateCertificate, first_missing, try_catch_finally, throw_if.
  cbn -[truthy trim lit certificate_request].
  destruct (truthy (trim (participant_name form))); [|reflexivity].
  destruct (truthy (course_name form)); [|reflexivity].
  destruct (truthy (completion_date form)); reflexivity.
Qed.

Lemma generateCertificate_resume_eq (form : CertForm) (p : Await)
    (s : Settlement) (w : World) :
  generateCertificate_resume form p s w =
  match p, s with
  | AwaitFetch, OfFetch (FetchRejected reason) =>
      (Normal tt, cert_failed reason w)
  | AwaitFetch, OfFetch (FetchResponse status) =>
      (Suspended (if response_ok status then AwaitBlob else AwaitJson status),
       w)
  | AwaitJson status, OfJson r =>
      (Normal tt, cert_failed (response_error_message r status) w)
  | AwaitBlob, OfBlob (BlobRejected reason) =>
      (Normal tt, cert_failed reason w)
  | AwaitBlob, OfBlob (BlobResolved blob) =>
      (Normal tt, cert_saved form blob w)
  | _, _ => (Suspended p, w)
  end.
Proof.
  settle_cases p s;
    try reflexivity.
  - unfold generateCertificate_resume, try_catch_finally.
    destruct (response_ok st); reflexivity.
  - apply certificate_download_eq.
Qed.

(** ** The event loop keeps flags and suspended runs in step *)

Lemma flag_matches_busy {T : Type} (tasks : list T) :
  flag_matches true tasks -> exists p, tasks = [p].
Proof.
  destruct tasks as [|p [|q r]]; cbn; intro H; try easy. now exists p.
Qed.

Lemma flag_matches_idle {T : Type} (tasks : list T) :
  flag_matches false tasks -> tasks = [].
Proof. destruct tasks as [|p [|q r]]; cbn; intro H; easy. Qed.

Lemma step_flow_invariant (w : World) (ev : Event) :
  flow_invariant w -> flow_invariant (step w ev).
Proof.
  intros [Hconv Hcert]. destruct ev as [t|v| |f v| |k s|k s]; unfold step.
  - split; assumption.
  - destruct (tab_eqb _ _); split; assumption.
  - destruct (tab_eqb _ _); [|split; assumption].
    destruct (download_btn_disabled (react w)) eqn:Hbusy;
      [split; assumption|].
    unfold download_btn_disabled in Hbusy. rewrite Hbusy in Hconv.
    apply flag_matches_idle in Hconv.
    cbn [andb negb]. rewrite convertToPdf_eq.
    split; cbn; [rewrite Hconv; reflexivity|exact Hcert].
  - destruct (_ && _); split; assumption.
  - destruct (tab_eqb _ _); [|split; assumption].
    destruct (cert_submit_btn_disabled (react w)) eqn:Hbusy;
      [split; assumption|].
    unfold cert_submit_btn_disabled in Hbusy. rewrite Hbusy in Hcert.
    apply flag_matches_idle in Hcert.
    cbn [andb negb]. rewrite generateCertificate_eq.
    destruct (first_missing (certForm (react w)));
      split; cbn; try exact Hconv; rewrite Hcert; reflexivity.
  - destruct (nth_error (convTasks w) k) as [p|] eqn:Hk; [|split; assumption].
    destruct (convTasks w) as [|q [|q' r]] eqn:Htasks; cbn in Hconv;
      [destruct k; discriminate Hk| |easy].
    destruct k as [|k]; [|destruct k; discriminate Hk].
    rewrite convertToPdf_resume_eq.
    settle_cases p s;
      split; cbn; rewrite ?Htasks; cbn; auto.
  - destruct (nth_error (certTasks w) k) as [[form p]|] eqn:Hk;
      [|split; assumption].
    destruct (certTasks w) as [|q [|q' r]] eqn:Htasks; cbn in Hcert;
      [destruct k; discriminate Hk| |easy].
    destruct k as [|k]; [|destruct k; discriminate Hk].
    rewrite generateCertificate_resume_eq.
    settle_cases p s;
      split; cbn; rewrite ?Htasks; cbn; auto.
Qed.

Lemma initial_flow_invariant (prod : bool) (welcome today : jsstring)
    (page : list N) :
  flow_invariant (initial_world prod welcome today page).
Proof. split; reflexivity. Qed.

Lemma reachable_flow_invariant (w0 w : World) :
  flow_invariant w0 -> reachable w0 w -> flow_invariant w.
Proof.
  intros H0 Hreach. induction Hreach as [|w ev _ IH]; [exact H0|].
  now apply step_flow_invariant.
Qed.

(** C3. In every state the client can reach, each form has at most one
    request in flight, and a form with a request in flight is busy; a
    submission on a busy form changes nothing, so a double click on an
    idle form sends exactly one request. *)
Theorem one_request_in_flight (prod : bool) (welcome today : jsstring)
    (page : list N) (w : World) :
  reachable (initial_world prod welcome today page) w ->
  (length (convTasks w) <= 1 /\ length (certTasks w) <= 1)
  /\ (convTasks w <> [] -> isConverting (react w) = true)
  /\ (certTasks w <> [] -> isGenerating (react w) = true)
  /\ (isConverting (react w) = true -> step w ClickDownload = w)
  /\ (isGenerating (react w) = true -> step w SubmitCertForm = w)
  /\ (activeTab (react w) = TabMarkdown -> isConverting (react w) = false ->
      let w2 := run w [ClickDownload; ClickDownload] in
      w2 = step w ClickDownload
      /\ convTasks w2 = [AwaitFetch]
      /\ network w2
         = network w
           ++ [convert_request (api_url w (lit "/api/convert"))
                               (markdown (react w))])
  /\ (activeTab (react w) = TabCertificate ->
      isGenerating (react w) = false ->
      first_missing (certForm (react w)) = None ->
      let w2 := run w [SubmitCertForm; SubmitCertForm] in
      w2 = step w SubmitCertForm
      /\ certTasks w2 = [(certForm (react w), AwaitFetch)]
      /\ network w2
         = network w
           ++ [certificate_request (api_url w (lit "/api/certificate"))
                                   (certForm (react w))]).
Proof.
  intro Hreach.
  destruct (reachable_flow_invariant _ w
              (initial_flow_invariant prod welcome today page) Hreach)
    as [Hconv Hcert].
  split; [|split; [|split; [|split; [|split; [|split]]]]].
  - split.
    + destruct (convTasks w) as [|p [|q r]]; cbn in *; [lia|lia|easy].
    + destruct (certTasks w) as [|p [|q r]]; cbn in *; [lia|lia|easy].
  - destruct (convTasks w) as [|p [|q r]]; cbn in *; easy.
  - destruct (certTasks w) as [|p [|q r]]; cbn in *; easy.
  - intro Hbusy. unfold step, download_btn_disabled. rewrite Hbusy.
    now rewrite andb_false_r.
  - intro Hbusy. unfold step, cert_submit_btn_disabled. rewrite Hbusy.
    now rewrite andb_false_r.
  - intros Htab Hidle w2. subst w2.
    rewrite Hidle in Hconv. apply flag_matches_idle in Hconv.
    unfold run. cbn [fold_left].
    assert (Hfirst : step w ClickDownload
                     = with_convTasks [AwaitFetch]
                         (conv_started (markdown (react w)) w)).
    { unfold step, download_btn_disabled. rewrite Htab, Hidle.
      cbn [tab_eqb andb negb]. rewrite convertToPdf_eq.
      cbn. rewrite Hconv. reflexivity. }
    rewrite Hfirst.
    assert (Hsecond :
      step (with_convTasks [AwaitFetch] (conv_started (markdown (react w)) w))
           ClickDownload
      = with_convTasks [AwaitFetch] (conv_started (markdown (react w)) w)).
    { unfold step, download_btn_disabled. cbn -[tab_eqb].
      now rewrite andb_false_r. }
    rewrite Hsecond. repeat split.
  - intros Htab Hidle Hvalid w2. subst w2.
    rewrite Hidle in Hcert. apply flag_matches_idle in Hcert.
    unfold run. cbn [fold_left].
    assert (Hfirst : step w SubmitCertForm
                     = with_certTasks [(certForm (react w), AwaitFetch)]
                         (cert_started (certForm (react w)) w)).
    { unfold step, cert_submit_btn_disabled. rewrite Htab, Hidle.
      cbn [tab_eqb andb negb]. rewrite generateCertificate_eq, Hvalid.
      cbn. rewrite Hcert. reflexivity. }
    rewrite Hfirst.
    assert (Hsecond :
      step (with_certTasks [(certForm (react w), AwaitFetch)]
              (cert_started (certForm (react w)) w))
           SubmitCertForm
      = with_certTasks [(certForm (react w), AwaitFetch)]
          (cert_started (certForm (react w)) w)).
    { unfold step, cert_submit_btn_disabled. cbn -[tab_eqb].
      now rewrite andb_false_r. }
    rewrite Hsecond. repeat split.
Qed.

Lemma one_request_in_flight_witness :
  let w := initial_world true (lit "# Test") (lit "2026-01-01") [1%N] in
  length (network (run w [ClickDownload; ClickDownload])) = 1
  /\ step (step w ClickDownload) ClickDownload = step w ClickDownload.
Proof.
  intro w.
  pose proof (one_request_in_flight true (lit "# Test") (lit "2026-01-01")
                [1%N] w (reach_init _)) as H.
  destruct H as [_ [_ [_ [_ [_ [Hdouble _]]]]]].
  destruct (Hdouble eq_refl eq_refl) as [Hsame [_ Hnet]].
  split; [rewrite Hnet; reflexivity|exact Hsame].
Defined.

(** ** Whole runs *)

Lemma run_convertToPdf_eq (sc : Script) (w : World) :
  run_convertToPdf sc w =
  (Normal tt,
   let w1 := conv_started (markdown (react w)) w in
   match on_fetch sc with
   | FetchRejected reason => conv_failed reason w1
   | FetchResponse status =>
       if response_ok status then
         match on_blob sc with
         | BlobRejected reason => conv_failed reason w1
         | BlobResolved blob => conv_saved blob w1
         end
       else conv_failed (response_error_message (on_json sc) status) w1
   end).
Proof.
  unfold run_convertToPdf. rewrite convertToPdf_eq.
  cbn [drive settlement_for]. rewrite convertToPdf_resume_eq.
  destruct (on_fetch sc) as [reason|status]; [reflexivity|].
  destruct (response_ok status); cbn [drive settlement_for];
    rewrite convertToPdf_resume_eq; [|reflexivity].
  destruct (on_blob sc); reflexivity.
Qed.

Lemma run_generateCertificate_eq (sc : Script) (w : World) :
  run_generateCertificate sc w =
  (Normal tt,
   let form := certForm (react w) in
   match first_missing form with
   | Some msg => cert_failed msg (cert_cleared w)
   | None =>
       let w1 := cert_started form w in
       match on_fetch sc with
       | FetchRejected reason => cert_failed reason w1
       | FetchResponse status =>
           if response_ok status then
             match on_blob sc with
             | BlobRejected reason => cert_failed reason w1
             | BlobResolved blob => cert_saved form blob w1
             end
           else cert_failed (response_error_message (on_json sc) status) w1
       end
   end).
Proof.
  unfold run_generateCertificate. rewrite generateCertificate_eq.
  destruct (first_missing (certForm (react w))); [reflexivity|].
  cbn [drive settlement_for]. rewrite generateCertificate_resume_eq.
  destruct (on_fetch sc) as [reason|status]; [reflexivity|].
  destruct (response_ok status); cbn [drive settlement_for];
    rewrite generateCertificate_resume_eq; [|reflexivity].
  destruct (on_blob sc); reflexivity.
Qed.

(** Whatever the body of the [try] does, once the construct is left the
    [finally] has run. *)
Lemma finally_clears_isConverting (body : Handler unit) (w : World) :
  match try_catch_finally body convert_catch convert_finally w with
  | (Suspended _, _) => True
  | (_, w') => isConverting (react w') = false
  end.
Proof.
  unfold try_catch_finally.
  destruct (body w) as [[[]|e|p] w1]; cbn; auto.
Qed.

Lemma finally_clears_isGenerating (body : Handler unit) (w : World) :
  match try_catch_finally body certificate_catch certificate_finally w with
  | (Suspended _, _) => True
  | (_, w') => isGenerating (react w') = false
  end.
Proof.
  unfold try_catch_finally.
  destruct (body w) as [[[]|e|p] w1]; cbn; auto.
Qed.

(** C4. Every run of a form's request flow comes to an end with the busy
    flag cleared, whatever the network answers (no response, a response
    that is not ok with any body, a body that cannot be read, or a
    download) and, for the certificate, whether or not the form passes
    validation: no error leaves the handler and the submit button is
    enabled again.  The [finally] clears the flag whatever the body of the
    [try] does, and in every reachable state a form without a pending run
    is not busy. *)
Theorem busy_flag_always_cleared (sc : Script) (w : World) :
  (fst (run_convertToPdf sc w) = Normal tt
   /\ isConverting (react (snd (run_convertToPdf sc w))) = false
   /\ download_btn_disabled (react (snd (run_convertToPdf sc w))) = false)
  /\ (fst (run_generateCertificate sc w) = Normal tt
      /\ isGenerating (react (snd (run_generateCertificate sc w))) = false
      /\ cert_submit_btn_disabled (react (snd (run_generateCertificate sc w)))
         = false)
  /\ (forall body : Handler unit,
        match try_catch_finally body convert_catch convert_finally w with
        | (Suspended _, _) => True
        | (_, w') => isConverting (react w') = false
        end
        /\ match try_catch_finally body certificate_catch
                                   certificate_finally w with
           | (Suspended _, _) => True
           | (_, w') => isGenerating (react w') = false
           end)
  /\ (forall prod welcome today page,
        reachable (initial_world prod welcome today page) w ->
        (convTasks w = [] -> isConverting (react w) = false)
        /\ (certTasks w = [] -> isGenerating (react w) = false)).
Proof.
  split; [|split; [|split]].
  - rewrite run_convertToPdf_eq. cbn [fst snd].
    unfold download_btn_disabled.
    destruct (on_fetch sc) as [reason|status]; [auto|].
    destruct (response_ok status); [|auto].
    destruct (on_blob sc); auto.
  - rewrite run_generateCertificate_eq. cbn [fst snd].
    unfold cert_submit_btn_disabled.
    destruct (first_missing (certForm (react w))); [auto|].
    destruct (on_fetch sc) as [reason|status]; [auto|].
    destruct (response_ok status); [|auto].
    destruct (on_blob sc); auto.
  - intro body. split.
    + apply finally_clears_isConverting.
    + apply finally_clears_isGenerating.
  - intros prod welcome today page Hreach.
    destruct (reachable_flow_invariant _ w
                (initial_flow_invariant prod welcome today page) Hreach)
      as [Hconv Hcert].
    split; intro Hnone; [rewrite Hnone in Hconv|rewrite Hnone in Hcert];
      assumption.
Qed.

Lemma busy_flag_always_cleared_witness :
  let w := initial_world false (lit "# Test") (lit "2026-01-01") [1%N] in
  isConverting (react w) = false
  /\ isConverting
       (react (snd (run_convertToPdf
                      (mkScript (FetchRejected (lit "Failed to fetch"))
                                JsonRejected (BlobRejected []))
                      w))) = false.
Proof.
  intro w.
  destruct (busy_flag_always_cleared
              (mkScript (FetchRejected (lit "Failed to fetch"))
                        JsonRejected (BlobRejected [])) w)
    as [[_ [Hflag _]] [_ [_ Hreach]]].
  split; [|exact Hflag].
  apply (Hreach false (lit "# Test") (lit "2026-01-01") [1%N] (reach_init _)).
  reflexivity.
Defined.

Lemma saved_files_after_download (d : Dom) (blob : Blob) (name : jsstring) :
  saved_files (journal (after_download d blob name))
  = saved_files (journal d) ++ [(name, Some blob)].
Proof.
  unfold after_download. cbn [journal]. rewrite saved_files_app. reflexivity.
Qed.

Lemma saved_files_logged (d : Dom) (label msg : jsstring) :
  saved_files (journal (log (E_console_error label msg) d))
  = saved_files (journal d).
Proof.
  unfold log. cbn [journal]. rewrite saved_files_app. cbn. apply app_nil_r.
Qed.

(** C6. The file of a certificate is saved under
    "Certificate_" ++ p' ++ ".pdf", where p is the participant name of
    the submitted form and p' is p with one underscore in place of every
    maximal run of whitespace; for "Jane Doe" this is
    "Certificate_Jane_Doe.pdf", which contains "Jane_Doe". *)
Theorem certificate_download_name (sc : Script) (w : World) (status : N)
    (blob : Blob) :
  let form := certForm (react w) in
  let name := lit "Certificate_" ++ underscore_per_run (participant_name form)
              ++ lit ".pdf" in
  (first_missing form = None ->
   on_fetch sc = FetchResponse status -> response_ok status = true ->
   on_blob sc = BlobResolved blob ->
   saved_files (journal (dom (snd (run_generateCertificate sc w))))
   = saved_files (journal (dom w)) ++ [(name, Some blob)])
  /\ (forall captured : CertForm,
        saved_files
          (journal (dom (snd (generateCertificate_resume captured AwaitBlob
                                (OfBlob (BlobResolved blob)) w))))
        = saved_files (journal (dom w))
          ++ [(lit "Certificate_"
               ++ underscore_per_run (participant_name captured)
               ++ lit ".pdf", Some blob)])
  /\ (participant_name form = lit "Jane Doe" ->
      name = lit "Certificate_Jane_Doe.pdf"
      /\ includes name (lit "Jane_Doe") = true).
Proof.
  intros form name. subst form name. split; [|split].
  - intros Hvalid Hfetch Hok Hblob.
    rewrite run_generateCertificate_eq. cbn [snd].
    rewrite Hvalid, Hfetch, Hok, Hblob.
    unfold cert_saved. cbn [snd certificate_finally setIsGenerating
      setCertSuccess update with_react with_dom dom].
    rewrite saved_files_after_download.
    unfold certificate_filename. rewrite replace_whitespace_runs_spec.
    reflexivity.
  - intro captured. rewrite generateCertificate_resume_eq.
    unfold cert_saved. cbn [snd certificate_finally setIsGenerating
      setCertSuccess update with_react with_dom dom].
    rewrite saved_files_after_download.
    unfold certificate_filename. rewrite replace_whitespace_runs_spec.
    reflexivity.
  - intros ->. split; reflexivity.
Qed.

Lemma certificate_download_name_witness :
  let form := mkCertForm (lit "Jane Doe") (lit "Full-Stack AI Development")
                         (lit "2026-01-01") DEFAULT_INSTRUCTOR in
  let w := mkWorld true
             (mkAppState TabCertificate [] false None form false None false)
             (initial_dom [1%N]) [] [] [] in
  let sc := mkScript (FetchResponse 200) JsonRejected
                     (BlobResolved [37; 80; 68; 70]%N) in
  saved_files (journal (dom (snd (run_generateCertificate sc w))))
  = [(lit "Certificate_Jane_Doe.pdf", Some [37; 80; 68; 70]%N)].
Proof.
  intros form w sc.
  destruct (certificate_download_name sc w 200 [37; 80; 68; 70]%N)
    as [Hrun [_ Hjane]].
  rewrite (Hrun eq_refl eq_refl eq_refl eq_refl).
  destruct (Hjane eq_refl) as [Hname _].
  rewrite Hname. reflexivity.
Defined.

(** C7. On a successful conversion, and likewise on a successful
    certificate, the download creates an object URL for the response
    blob, appends a fresh anchor to the document body, clicks it (the
    save resolves to the blob), revokes the URL and removes the anchor,
    in this order and with nothing else done to the browser; when the
    flow has ended the children of the body and the live object URLs are
    what they were before it. *)
Theorem download_is_transient (sc : Script) (w : World) (status : N)
    (blob : Blob) :
  dom_wf (dom w) ->
  on_fetch sc = FetchResponse status -> response_ok status = true ->
  on_blob sc = BlobResolved blob ->
  let u := next_url (dom w) in
  let a := next_node (dom w) in
  let steps := fun name =>
    [ E_createObjectURL u; E_appendChild a; E_click a name (Some blob);
      E_revokeObjectURL u; E_removeChild a ] in
  (~ In a (body_children (dom w)) /\ resolve_url u (object_urls (dom w)) = None)
  /\ (let done := dom (snd (run_convertToPdf sc w)) in
      journal done = journal (dom w) ++ steps (lit "markdown-export.pdf")
      /\ body_children done = body_children (dom w)
      /\ object_urls done = object_urls (dom w))
  /\ (first_missing (certForm (react w)) = None ->
      let done := dom (snd (run_generateCertificate sc w)) in
      journal done
      = journal (dom w)
        ++ steps (certificate_filename (participant_name (certForm (react w))))
      /\ body_children done = body_children (dom w)
      /\ object_urls done = object_urls (dom w)).
Proof.
  intros Hwf Hfetch Hok Hblob u a steps. subst u a steps.
  destruct (after_download_restores (dom w) blob EXPORT_NAME Hwf)
    as [Hb1 [Hu1 _]].
  destruct (after_download_restores (dom w) blob
              (certificate_filename (participant_name (certForm (react w))))
              Hwf)
    as [Hb2 [Hu2 _]].
  split; [|split].
  - destruct Hwf as [Hbody Hurls]. split.
    + intro Hin. rewrite Forall_forall in Hbody. apply Hbody in Hin. lia.
    + now apply resolve_url_fresh.
  - rewrite run_convertToPdf_eq. cbn [snd]. rewrite Hfetch, Hok, Hblob.
    repeat split; assumption.
  - intro Hvalid. rewrite run_generateCertificate_eq. cbn [snd].
    rewrite Hvalid, Hfetch, Hok, Hblob.
    repeat split; assumption.
Qed.

Lemma download_is_transient_witness :
  let w := initial_world true (lit "# Test") (lit "2026-01-01") [1; 2]%N in
  let sc := mkScript (FetchResponse 200) JsonRejected
                     (BlobResolved [37; 80; 68; 70]%N) in
  body_children (dom (snd (run_convertToPdf sc w))) = [1; 2]%N
  /\ object_urls (dom (snd (run_convertToPdf sc w))) = []
  /\ journal (dom (snd (run_convertToPdf sc w)))
     = [ E_createObjectURL 0; E_appendChild 3;
         E_click 3 (lit "markdown-export.pdf") (Some [37; 80; 68; 70]%N);
         E_revokeObjectURL 0; E_removeChild 3 ].
Proof.
  intros w sc.
  assert (Hwf : dom_wf (dom w)).
  { split; cbn; repeat constructor. }
  destruct (download_is_transient sc w 200 [37; 80; 68; 70]%N Hwf
              eq_refl eq_refl eq_refl)
    as [_ [[Hj [Hb Hu]] _]].
  split; [exact Hb|split; [exact Hu|exact Hj]].
Defined.

(** The counters stay ahead of the identities in use. *)
Lemma step_dom_wf (w : World) (ev : Event) :
  dom_wf (dom w) -> dom_wf (dom (step w ev)).
Proof.
  intro Hwf.
  assert (Hfail : forall msg w1, dom_wf (dom w1) ->
                    dom_wf (dom (conv_failed msg w1))
                    /\ dom_wf (dom (cert_failed msg w1))).
  { intros msg w1 [Hb Hu]. split; split; assumption. }
  assert (Hsave : forall blob name w1, dom_wf (dom w1) ->
                    dom_wf (after_download (dom w1) blob name)).
  { intros blob name w1 H. now apply after_download_restores. }
  destruct ev as [t|v| |f v| |k s|k s]; unfold step.
  - exact Hwf.
  - destruct (tab_eqb _ _); exact Hwf.
  - destruct (_ && _); [|exact Hwf]. rewrite convertToPdf_eq. exact Hwf.
  - destruct (_ && _); exact Hwf.
  - destruct (_ && _); [|exact Hwf]. rewrite generateCertificate_eq.
    destruct (first_missing _); [|exact Hwf].
    apply (Hfail j (cert_cleared w)). exact Hwf.
  - destruct (nth_error (convTasks w) k) as [p|]; [|exact Hwf].
    rewrite convertToPdf_resume_eq.
    settle_cases p s;
      lazymatch goal with
      | |- dom_wf (dom (with_convTasks _ (conv_failed ?m w))) =>
          exact (proj1 (Hfail m w Hwf))
      | |- dom_wf (dom (with_convTasks _ (conv_saved ?b w))) =>
          exact (Hsave b EXPORT_NAME w Hwf)
      | |- dom_wf (dom (with_convTasks _ w)) => exact Hwf
      end.
  - destruct (nth_error (certTasks w) k) as [[form p]|]; [|exact Hwf].
    rewrite generateCertificate_resume_eq.
    settle_cases p s;
      lazymatch goal with
      | |- dom_wf (dom (with_certTasks _ (cert_failed ?m w))) =>
          exact (proj2 (Hfail m w Hwf))
      | |- dom_wf (dom (with_certTasks _ (cert_saved _ ?b w))) =>
          exact (Hsave b (certificate_filename (participant_name form)) w Hwf)
      | |- dom_wf (dom (with_certTasks _ w)) => exact Hwf
      end.
Qed.

Lemma initial_dom_wf (page : list N) : dom_wf (initial_dom page).
Proof.
  split; [|constructor]. cbn.
  induction page as [|n page IH]; constructor; cbn.
  - lia.
  - eapply Forall_impl; [|exact IH]. cbn. intros; lia.
Qed.

Lemma reachable_dom_wf (prod : bool) (welcome today : jsstring)
    (page : list N) (w : World) :
  reachable (initial_world prod welcome today page) w -> dom_wf (dom w).
Proof.
  induction 1 as [|w ev _ IH]; [apply initial_dom_wf|].
  now apply step_dom_wf.
Qed.

(** C9. Whatever the editor holds, a conversion sends "filename":
    "markdown-export.pdf" in its request body next to the editor text,
    and a download, if the run gets that far, is saved under
    "markdown-export.pdf"; the run saves or sends nothing else. *)
Theorem export_name_is_fixed (sc : Script) (w : World) :
  let r := run_convertToPdf sc w in
  network (snd r)
  = network w
    ++ [mkRequest (api_url w (lit "/api/convert")) (lit "POST")
          [(lit "Content-Type", lit "application/json")]
          (JSON_stringify [ (lit "markdown", markdown (react w));
                            (lit "filename", lit "markdown-export.pdf") ])]
  /\ saved_files (journal (dom (snd r)))
     = saved_files (journal (dom w))
       ++ match on_fetch sc, on_blob sc with
          | FetchResponse status, BlobResolved blob =>
              if response_ok status
              then [(lit "markdown-export.pdf", Some blob)]
              else []
          | _, _ => []
          end.
Proof.
  intro r. subst r. rewrite run_convertToPdf_eq. cbn [snd].
  assert (Hfailed : forall msg w1,
            network (conv_failed msg w1) = network w1
            /\ saved_files (journal (dom (conv_failed msg w1)))
               = saved_files (journal (dom w1)) ++ []).
  { intros msg w1. split; [reflexivity|].
    unfold conv_failed, convert_finally, convert_catch.
    cbn -[saved_files log]. rewrite saved_files_logged.
    now rewrite app_nil_r. }
  assert (Hsaved : forall blob w1,
            network (conv_saved blob w1) = network w1
            /\ saved_files (journal (dom (conv_saved blob w1)))
               = saved_files (journal (dom w1))
                 ++ [(lit "markdown-export.pdf", Some blob)]).
  { intros blob w1. split; [reflexivity|].
    unfold conv_saved. cbn -[saved_files after_download].
    apply saved_files_after_download. }
  assert (Hstart : network (conv_started (markdown (react w)) w)
                   = network w
                     ++ [convert_request (api_url w (lit "/api/convert"))
                                         (markdown (react w))]
                   /\ dom (conv_started (markdown (react w)) w) = dom w)
    by (split; reflexivity).
  destruct Hstart as [Hnet Hdom]. cbv zeta.
  destruct (on_fetch sc) as [reason|status].
  { destruct (Hfailed reason (conv_started (markdown (react w)) w))
      as [-> ->].
    rewrite Hnet, Hdom. split; reflexivity. }
  destruct (response_ok status).
  - destruct (on_blob sc) as [reason|blob].
    + destruct (Hfailed reason (conv_started (markdown (react w)) w))
        as [-> ->].
      rewrite Hnet, Hdom. split; reflexivity.
    + destruct (Hsaved blob (conv_started (markdown (react w)) w))
        as [-> ->].
      rewrite Hnet, Hdom. split; reflexivity.
  - destruct (Hfailed (response_error_message (on_json sc) status)
                (conv_started (markdown (react w)) w)) as [-> ->].
    rewrite Hnet, Hdom. destruct (on_blob sc); split; reflexivity.
Qed.

(** C10. The body of a certificate request is JSON.stringify of the form
    as it stands at submission, with its four properties in order.  The
    instructor starts as "IntelliForge AI Team"; once the user has
    cleared it the form holds the empty string and the body ends in
    "instructor_name":"" with no default put back (only the preview card
    shows the default for an empty instructor).  Every field edit stores
    the value and clears the error and the success display. *)
Theorem certificate_body_is_form_state (welcome today : jsstring)
    (f : CertField) (v : jsstring) (w : World) :
  instructor_name (certForm (initial_state welcome today))
  = lit "IntelliForge AI Team"
  /\ (let w' := snd (updateCertField f v w) in
      certForm (react w') = spread_with (certForm (react w)) f v
      /\ certError (react w') = None
      /\ certSuccess (react w') = false)
  /\ (let form := certForm (react w) in
      first_missing form = None ->
      network (snd (generateCertificate form w))
      = network w
        ++ [mkRequest (api_url w (lit "/api/certificate")) (lit "POST")
              [(lit "Content-Type", lit "application/json")]
              (JSON_stringify
                 [ (lit "participant_name", participant_name form);
                   (lit "course_name", course_name form);
                   (lit "completion_date", completion_date form);
                   (lit "instructor_name", instructor_name form) ])])
  /\ (activeTab (react w) = TabCertificate ->
      isGenerating (react w) = false ->
      first_missing (certForm (react w)) = None ->
      let cleared := step w (EditCertField F_instructor_name []) in
      let sent := step cleared SubmitCertForm in
      instructor_name (certForm (react cleared)) = []
      /\ preview_instructor (certForm (react cleared))
         = lit "IntelliForge AI Team"
      /\ exists head,
           map body (network sent)
           = map body (network w)
             ++ [head ++ quote (lit "instructor_name") ++ lit ":"
                 ++ quote [] ++ lit "}"]).
Proof.
  split; [reflexivity|split; [|split; [|]]].
  - destruct f; repeat split.
  - intros form Hvalid. rewrite generateCertificate_eq, Hvalid. reflexivity.
  - intros Htab Hidle Hvalid cleared sent. subst cleared sent.
    assert (Hedit : step w (EditCertField F_instructor_name [])
                    = snd (updateCertField F_instructor_name [] w)).
    { unfold step. rewrite Htab. reflexivity. }
    rewrite Hedit. split; [reflexivity|split; [reflexivity|]].
    set (w1 := snd (updateCertField F_instructor_name [] w)).
    set (form1 := certForm (react w1)).
    assert (Hsent : step w1 SubmitCertForm
                    = with_certTasks (certTasks w1 ++ [(form1, AwaitFetch)])
                        (cert_started form1 w1)).
    { unfold step, cert_submit_btn_disabled.
      replace (activeTab (react w1)) with TabCertificate
        by (symmetry; exact Htab).
      replace (isGenerating (react w1)) with false
        by (symmetry; exact Hidle).
      cbn [tab_eqb andb negb]. fold form1.
      rewrite generateCertificate_eq.
      replace (first_missing form1) with (@None jsstring)
        by (symmetry; exact Hvalid).
      reflexivity. }
    rewrite Hsent.
    exists ([123%N]
            ++ stringify_property (lit "participant_name",
                                   participant_name (certForm (react w)))
            ++ [44%N]
            ++ stringify_property (lit "course_name",
                                   course_name (certForm (react w)))
            ++ [44%N]
            ++ stringify_property (lit "completion_date",
                                   completion_date (certForm (react w)))
            ++ [44%N]).
    cbn [network with_certTasks cert_started fetch update snd].
    rewrite map_app. cbn [map body certificate_request].
    f_equal. f_equal.
    unfold JSON_stringify, certForm_properties, form1, w1.
    cbn [map join_comma updateCertField].
    unfold stringify_property at 4. cbn [fst snd].
    repeat rewrite <- app_assoc. reflexivity.
Qed.

Lemma certificate_body_is_form_state_witness :
  let form := mkCertForm (lit "Jane Doe") (lit "Full-Stack AI Development")
                         (lit "2026-01-01") DEFAULT_INSTRUCTOR in
  let w := mkWorld true
             (mkAppState TabCertificate [] false None form false None false)
             (initial_dom [1%N]) [] [] [] in
  map body (network (snd (generateCertificate
                            (spread_with form F_instructor_name []) w)))
  = [ lit "{" ++ quote (lit "participant_name") ++ lit ":"
      ++ quote (lit "Jane Doe") ++ lit ","
      ++ quote (lit "course_name") ++ lit ":"
      ++ quote (lit "Full-Stack AI Development") ++ lit ","
      ++ quote (lit "completion_date") ++ lit ":"
      ++ quote (lit "2026-01-01") ++ lit ","
      ++ quote (lit "instructor_name") ++ lit ":" ++ quote [] ++ lit "}" ].
Proof.
  intros form w.
  pose (w1 := snd (updateCertField F_instructor_name [] w)).
  destruct (certificate_body_is_form_state [] [] F_instructor_name [] w1)
    as [_ [_ [Hbody _]]].
  cbv zeta in Hbody.
  change (generateCertificate (spread_with form F_instructor_name []) w)
    with (generateCertificate (certForm (react w1)) w).
  assert (Hsame : network (snd (generateCertificate (certForm (react w1)) w))
                  = network (snd (generateCertificate (certForm (react w1)) w1)))
    by reflexivity.
  rewrite Hsame, (Hbody eq_refl). reflexivity.
Defined.

(** ** The event loop against whole runs *)

Lemma run_reachable (w0 : World) (evs : list Event) :
  reachable w0 (run w0 evs).
Proof.
  unfold run. rewrite <- (rev_involutive evs).
  induction (rev evs) as [|ev l IH]; [constructor|].
  cbn [rev]. rewrite fold_left_app. cbn [fold_left]. now constructor.
Qed.

Lemma settle_convert_idle (w : World) (k : nat) (s : Settlement) :
  convTasks w = [] -> step w (SettleConvert k s) = w.
Proof. intro H. unfold step. rewrite H. now destruct k. Qed.

Lemma settle_certificate_idle (w : World) (k : nat) (s : Settlement) :
  certTasks w = [] -> step w (SettleCertificate k s) = w.
Proof. intro H. unfold step. rewrite H. now destruct k. Qed.

(** A click on an idle form, then the settlements of a script in the
    order fetch, json, blob: the event loop ends where the whole run
    ends, with no run left suspended.  (A settlement that does not match
    the awaited promise finds nothing to resume.) *)
Lemma event_loop_runs_convertToPdf (sc : Script) (w : World) :
  activeTab (react w) = TabMarkdown -> isConverting (react w) = false ->
  convTasks w = [] ->
  run w [ ClickDownload; SettleConvert 0 (OfFetch (on_fetch sc));
          SettleConvert 0 (OfJson (on_json sc));
          SettleConvert 0 (OfBlob (on_blob sc)) ]
  = snd (run_convertToPdf sc w).
Proof.
  intros Htab Hidle Hnone. rewrite run_convertToPdf_eq. cbn [snd].
  unfold run. cbn [fold_left].
  assert (Hfirst : step w ClickDownload
                   = with_convTasks [AwaitFetch]
                       (conv_started (markdown (react w)) w)).
  { unfold step, download_btn_disabled. rewrite Htab, Hidle.
    cbn [tab_eqb andb negb]. rewrite convertToPdf_eq.
    cbn. rewrite Hnone. reflexivity. }
  rewrite Hfirst.
  set (w1 := conv_started (markdown (react w)) w).
  assert (Hnone1 : convTasks w1 = []) by exact Hnone.
  destruct w1 as [prod1 react1 dom1 net1 conv1 cert1] eqn:Hw1.
  cbn in Hnone1. subst conv1.
  unfold step at 3. cbn [convTasks with_convTasks nth_error].
  rewrite convertToPdf_resume_eq.
  destruct (on_fetch sc) as [reason|status]; [reflexivity|].
  destruct (response_ok status).
  - unfold step at 2. cbn [convTasks with_convTasks nth_error replace_nth].
    rewrite convertToPdf_resume_eq. cbn [with_convTasks replace_nth convTasks].
    unfold step. cbn [convTasks with_convTasks nth_error].
    rewrite convertToPdf_resume_eq.
    destruct (on_blob sc); reflexivity.
  - unfold step at 2. cbn [convTasks with_convTasks nth_error replace_nth].
    rewrite convertToPdf_resume_eq. reflexivity.
Qed.

Lemma event_loop_runs_generateCertificate (sc : Script) (w : World) :
  activeTab (react w) = TabCertificate -> isGenerating (react w) = false ->
  certTasks w = [] ->
  run w [ SubmitCertForm; SettleCertificate 0 (OfFetch (on_fetch sc));
          SettleCertificate 0 (OfJson (on_json sc));
          SettleCertificate 0 (OfBlob (on_blob sc)) ]
  = snd (run_generateCertificate sc w).
Proof.
  intros Htab Hidle Hnone. rewrite run_generateCertificate_eq. cbn [snd].
  unfold run. cbn [fold_left].
  assert (Hfirst : step w SubmitCertForm
                   = match first_missing (certForm (react w)) with
                     | Some msg => cert_failed msg (cert_cleared w)
                     | None =>
                         with_certTasks [(certForm (react w), AwaitFetch)]
                           (cert_started (certForm (react w)) w)
                     end).
  { unfold step, cert_submit_btn_disabled. rewrite Htab, Hidle.
    cbn [tab_eqb andb negb]. rewrite generateCertificate_eq.
    destruct (first_missing (certForm (react w))); [reflexivity|].
    cbn. rewrite Hnone. reflexivity. }
  rewrite Hfirst. cbv zeta.
  destruct (first_missing (certForm (react w))) as [msg|].
  { rewrite !(settle_certificate_idle (cert_failed msg (cert_cleared w)))
      by exact Hnone.
    reflexivity. }
  set (form := certForm (react w)).
  set (w1 := cert_started form w).
  assert (Hnone1 : certTasks w1 = []) by exact Hnone.
  destruct w1 as [prod1 react1 dom1 net1 conv1 cert1] eqn:Hw1.
  cbn in Hnone1. subst cert1.
  unfold step at 3. cbn [certTasks with_certTasks nth_error].
  rewrite generateCertificate_resume_eq.
  destruct (on_fetch sc) as [reason|status]; [reflexivity|].
  destruct (response_ok status).
  - unfold step at 2. cbn [certTasks with_certTasks nth_error replace_nth].
    rewrite generateCertificate_resume_eq.
    cbn [with_certTasks replace_nth certTasks].
    unfold step. cbn [certTasks with_certTasks nth_error].
    rewrite generateCertificate_resume_eq.
    destruct (on_blob sc); reflexivity.
  - unfold step at 2. cbn [certTasks with_certTasks nth_error replace_nth].
    rewrite generateCertificate_resume_eq. reflexivity.
Qed.

(** ** The course the client can send *)

Lemma jsstring_eqb_eq (a b : jsstring) : jsstring_eqb a b = true <-> a = b.
Proof.
  unfold jsstring_eqb. destruct (list_eq_dec N.eq_dec a b); split;
    intro H; congruence.
Qed.

Lemma input_accepts_course (v : jsstring) :
  input_accepts F_course_name v = true -> In v course_options.
Proof.
  unfold input_accepts. intro H. apply existsb_exists in H.
  destruct H as [c [Hc Heq]]. apply jsstring_eqb_eq in Heq. now subst c.
Qed.

Lemma first_missing_none_course (form : CertForm) :
  first_missing form = None -> course_name form <> [].
Proof.
  unfold first_missing.
  destruct (truthy (trim (participant_name form))); [|discriminate].
  destruct (course_name form); [discriminate|]. intros _. discriminate.
Qed.

Lemma course_invariant_step (w : World) (ev : Event) :
  course_invariant w -> course_invariant (step w ev).
Proof.
  intros [Hform Hsent].
  assert (Hfailed : forall msg w1, course_invariant w1 ->
            course_invariant (conv_failed msg w1)
            /\ course_invariant (cert_failed msg w1)).
  { intros msg w1 H1. split; exact H1. }
  destruct ev as [t|v| |f v| |k s|k s]; unfold step.
  - split; assumption.
  - destruct (tab_eqb _ _); split; assumption.
  - destruct (_ && _); [|split; assumption]. rewrite convertToPdf_eq.
    split; [exact Hform|].
    cbn. apply Forall_app. split; [exact Hsent|].
    constructor; [|constructor]. left. eauto.
  - destruct (tab_eqb _ _); [|split; assumption].
    destruct (input_accepts f v) eqn:Hacc; [|split; assumption].
    split; [|exact Hsent].
    destruct f; cbn; try exact Hform. now apply input_accepts_course.
  - destruct (_ && _); [|split; assumption]. rewrite generateCertificate_eq.
    destruct (first_missing (certForm (react w))) as [msg|] eqn:Hvalid.
    + split; assumption.
    + split; [exact Hform|].
      cbn. apply Forall_app. split; [exact Hsent|].
      constructor; [|constructor]. right.
      exists (api_url w (lit "/api/certificate")), (certForm (react w)).
      split; [reflexivity|].
      destruct Hform as [Hempty|Hin]; [|exact Hin].
      exfalso. now apply (first_missing_none_course _ Hvalid).
  - destruct (nth_error (convTasks w) k) as [p|]; [|split; assumption].
    rewrite convertToPdf_resume_eq.
    settle_cases p s;
      split; assumption.
  - destruct (nth_error (certTasks w) k) as [[form p]|]; [|split; assumption].
    rewrite generateCertificate_resume_eq.
    settle_cases p s;
      split; assumption.
Qed.

(** Every certificate request the client sends names one of [COURSES]:
    the select offers nothing else and the handler refuses the empty
    choice. *)
Lemma client_sends_enumerated_courses (prod : bool)
    (welcome today : jsstring) (page : list N) (w : World) :
  reachable (initial_world prod welcome today page) w -> course_invariant w.
Proof.
  induction 1 as [|w ev _ IH].
  - split; [now left|constructor].
  - now apply course_invariant_step.
Qed.

(** ** The backend *)

Lemma in_courses_false (course : jsstring) :
  ~ In course COURSES -> in_courses COURSES course = false.
Proof.
  intro Hnot. unfold in_courses. apply not_true_is_false. intro Hin.
  apply existsb_exists in Hin. destruct Hin as [c [Hc Heq]].
  unfold jsstring_eqb in Heq.
  destruct (list_eq_dec N.eq_dec course c); [|discriminate].
  subst c. exact (Hnot Hc).
Qed.

Section EndpointProperties.

Variable markdown_convert : jsstring -> jsstring.
Variable Ambient : Type.
Variable pisa_CreatePDF : Ambient -> jsstring -> Blob.
Variable HTML_TEMPLATE : Template.
Variable validation_status : N.
Variable validation_detail : jsstring -> jsstring.
Variable certificate_html : CertificateRequest -> jsstring.
Variable certificate_attachment : jsstring -> jsstring.

(** C1. A request to POST /api/convert whose markdown is absent or the
    empty string is answered with a 4xx status and a JSON body that has
    a [detail] property, and nothing is handed to the PDF engine. *)
Theorem convert_rejects_missing_markdown (amb : Ambient) (b : ConvertBody) :
  (400 <= validation_status <= 499)%N ->
  body_markdown b = None \/ body_markdown b = Some [] ->
  let r := post_api_convert markdown_convert Ambient pisa_CreatePDF
             HTML_TEMPLATE validation_status validation_detail amb b in
  is_client_error (fst r) = true
  /\ has_detail (fst r) = true
  /\ content (fst r)
     = JsonObject [(lit "detail", validation_detail (lit "markdown"))]
  /\ snd r = [].
Proof.
  intros H4xx Hmissing r. subst r.
  unfold post_api_convert, validate_MarkdownRequest.
  assert (Hm : missing (body_markdown b) = true)
    by (destruct Hmissing as [-> | ->]; reflexivity).
  rewrite Hm. cbn [fst snd]. repeat split.
  unfold is_client_error, validation_error. cbn [status_code].
  apply andb_true_iff. split; apply N.leb_le; lia.
Qed.

(** C2. A certificate payload whose course is not one of the
    enumerated courses is answered with a validation error, and nothing
    is handed to the PDF engine, whatever the other fields hold. *)
Theorem certificate_rejects_unknown_course (amb : Ambient)
    (b : CertificateBody) :
  (400 <= validation_status <= 499)%N ->
  (forall course, body_course_name b = Some course -> ~ In course COURSES) ->
  let r := post_api_certificate Ambient pisa_CreatePDF validation_status
             validation_detail certificate_html certificate_attachment
             COURSES amb b in
  is_client_error (fst r) = true
  /\ has_detail (fst r) = true
  /\ snd r = []
  /\ exists field,
       fst r = validation_error validation_status validation_detail field.
Proof.
  intros H4xx Hnot r. subst r.
  unfold post_api_certificate.
  assert (Hrej : exists field,
            validate_CertificateRequest COURSES b = inr field).
  { unfold validate_CertificateRequest.
    destruct (missing (body_participant_name b)); [eauto|].
    destruct (body_course_name b) as [course|] eqn:Hcourse;
      [|cbn [missing]; eauto].
    destruct (missing (Some course)); [eauto|].
    destruct (missing (body_completion_date b)); [eauto|].
    cbn [given]. rewrite (in_courses_false course (Hnot course eq_refl)).
    cbn [negb]. eauto. }
  destruct Hrej as [field ->]. cbn [fst snd].
  repeat split; [|exists field; reflexivity].
  unfold is_client_error, validation_error. cbn [status_code].
  apply andb_true_iff. split; apply N.leb_le; lia.
Qed.

End EndpointProperties.

Lemma convert_rejects_missing_markdown_witness :
  let r := post_api_convert (fun md => md) unit (fun _ html => html)
             [Text (lit "<html>"); ContentField; Text (lit "</html>")]
             422%N (fun field => field ++ lit " is required")
             tt (mkConvertBody (Some []) None) in
  is_client_error (fst r) = true /\ has_detail (fst r) = true /\ snd r = [].
Proof.
  intro r.
  destruct (convert_rejects_missing_markdown (fun md => md) unit
              (fun _ html => html)
              [Text (lit "<html>"); ContentField; Text (lit "</html>")]
              422%N (fun field => field ++ lit " is required")
              tt (mkConvertBody (Some []) None))
    as [H4 [Hd [_ Hcalls]]].
  - lia.
  - right. reflexivity.
  - split; [exact H4|split; [exact Hd|exact Hcalls]].
Defined.

Lemma certificate_rejects_unknown_course_witness :
  let b := mkCertificateBody (Some (lit "Jane Doe"))
             (Some (lit "Underwater Basket Weaving"))
             (Some (lit "2026-01-01")) (Some (lit "IntelliForge AI Team")) in
  let r := post_api_certificate unit (fun _ html => html) 422%N
             (fun field => field ++ lit " is invalid")
             (fun request => req_participant_name request)
             (fun name => name) COURSES tt b in
  is_client_error (fst r) = true /\ snd r = [].
Proof.
  intros b r.
  destruct (certificate_rejects_unknown_course unit (fun _ html => html)
              422%N (fun field => field ++ lit " is invalid")
              (fun request => req_participant_name request)
              (fun name => name) tt b)
    as [H4 [_ [Hcalls _]]].
  - lia.
  - intros course Hcourse. injection Hcourse as <-.
    intro Hin. cbn in Hin.
    repeat (destruct Hin as [Hin|Hin]; [discriminate Hin|]). exact Hin.
  - split; [exact H4|exact Hcalls].
Defined.


(* ===================================================================== *)
(** * Further properties of the client *)
(* ===================================================================== *)

(** ** The request body as JSON text *)

Lemma unhex_hex_digit (d : N) : (d < 16)%N -> unhex_digit (hex_digit d) = d.
Proof.
  intro Hd. unfold unhex_digit, hex_digit.
  destruct (N.ltb_spec d 10).
  - replace ((48 <=? 48 + d) && (48 + d <=? 57))%N with true; [lia|].
    symmetry. apply andb_true_iff. split; apply N.leb_le; lia.
  - replace ((48 <=? 87 + d) && (87 + d <=? 57))%N with false; [lia|].
    symmetry. apply andb_false_iff. right. apply N.leb_gt. lia.
Qed.

Lemma unhex4_escape (c : N) :
  (c < 65536)%N ->
  unhex4 (hex_digit (c / 4096 mod 16)) (hex_digit (c / 256 mod 16))
         (hex_digit (c / 16 mod 16)) (hex_digit (c mod 16)) = c.
Proof.
  intro Hc. unfold unhex4.
  assert (H16 : (16 <> 0)%N) by lia.
  rewrite !unhex_hex_digit by (apply N.mod_lt; exact H16).
  change 4096%N with (16 * 256)%N. change 256%N with (16 * 16)%N.
  rewrite <- !N.Div0.div_div.
  pose proof (N.div_mod c 16 H16) as E1.
  pose proof (N.div_mod (c / 16) 16 H16) as E2.
  pose proof (N.div_mod (c / 16 / 16) 16 H16) as E3.
  assert (Hq : (c / 16 / 16 / 16 < 16)%N).
  { rewrite !N.Div0.div_div. apply N.Div0.div_lt_upper_bound. lia. }
  rewrite (N.mod_small _ _ Hq).
  remember (c / 16)%N as q1. remember (c mod 16)%N as r1.
  remember (q1 / 16)%N as q2. remember (q1 mod 16)%N as r2.
  remember (q2 / 16)%N as q3. remember (q2 mod 16)%N as r3.
  lia.
Qed.

Lemma quote_chars_ind2 (P : jsstring -> Prop) :
  P [] ->
  (forall c d r, is_high_surrogate c = true -> is_low_surrogate d = true ->
                 quote_chars (c :: d :: r) = c :: d :: quote_chars r ->
                 P r -> P (c :: d :: r)) ->
  (forall c r, quote_chars (c :: r) = quote_unit c ++ quote_chars r ->
               P r -> P (c :: r)) ->
  forall s, P s.
Proof.
  intros Hnil Hpair Hunit s.
  enough (H : P s /\ forall c, P (c :: s)) by apply H.
  induction s as [|d r [IHr IHd]].
  - split; [exact Hnil|]. intro c. apply Hunit; [|exact Hnil].
    cbn. destruct (is_high_surrogate c); now rewrite ?app_nil_r.
  - split; [apply IHd|]. intro c.
    destruct (is_high_surrogate c) eqn:Hc; destruct (is_low_surrogate d) eqn:Hd.
    + apply Hpair; auto. cbn [quote_chars]. now rewrite Hc, Hd.
    + apply Hunit; [|apply IHd]. cbn [quote_chars]. now rewrite Hc, Hd.
    + apply Hunit; [|apply IHd]. cbn [quote_chars]. now rewrite Hc.
    + apply Hunit; [|apply IHd]. cbn [quote_chars]. now rewrite Hc.
Qed.

Lemma read_plain (c : N) (rest : jsstring) :
  c <> 34%N -> c <> 92%N -> read_chars (c :: rest) = read_more c rest.
Proof.
  intros H34 H92. cbn [read_chars].
  destruct (N.eqb_spec c 34); [easy|]. destruct (N.eqb_spec c 92); easy.
Qed.

Lemma read_quote_unit (c : N) (rest : jsstring) :
  read_chars (quote_unit c ++ rest) = read_more c rest.
Proof.
  unfold quote_unit.
  destruct (N.eqb_spec c 8) as [->|H8]; [reflexivity|].
  destruct (N.eqb_spec c 9) as [->|H9]; [reflexivity|].
  destruct (N.eqb_spec c 10) as [->|H10]; [reflexivity|].
  destruct (N.eqb_spec c 12) as [->|H12]; [reflexivity|].
  destruct (N.eqb_spec c 13) as [->|H13]; [reflexivity|].
  destruct (N.eqb_spec c 34) as [->|H34]; [reflexivity|].
  destruct (N.eqb_spec c 92) as [->|H92]; [reflexivity|].
  destruct ((c <? 32)%N || is_high_surrogate c || is_low_surrogate c) eqn:Hesc.
  - assert (Hc : (c < 65536)%N).
    { unfold is_high_surrogate, is_low_surrogate in Hesc.
      apply orb_true_iff in Hesc. destruct Hesc as [Hesc|Hesc].
      - apply orb_true_iff in Hesc. destruct Hesc as [Hesc|Hesc].
        + apply N.ltb_lt in Hesc. lia.
        + apply andb_true_iff in Hesc. destruct Hesc as [_ Hesc].
          apply N.leb_le in Hesc. lia.
      - apply andb_true_iff in Hesc. destruct Hesc as [_ Hesc].
        apply N.leb_le in Hesc. lia. }
    unfold unicode_escape. cbn [app read_chars N.eqb Pos.eqb].
    unfold read_more. rewrite (unhex4_escape c Hc). reflexivity.
  - cbn [app]. now apply read_plain.
Qed.

Lemma surrogate_plain (c : N) :
  is_high_surrogate c = true \/ is_low_surrogate c = true ->
  c <> 34%N /\ c <> 92%N.
Proof.
  unfold is_high_surrogate, is_low_surrogate.
  intros [H|H]; apply andb_true_iff in H; destruct H as [H _];
    apply N.leb_le in H; lia.
Qed.

(** Reading undoes quoting, up to the closing quote. *)
Lemma read_quote_chars (s rest : jsstring) :
  read_chars (quote_chars s ++ 34%N :: rest) = Some (s, rest).
Proof.
  induction s as [|c d r Hc Hd Heq IH|c r Heq IH] using quote_chars_ind2.
  - reflexivity.
  - rewrite Heq. cbn [app].
    destruct (surrogate_plain c (or_introl Hc)) as [? ?].
    destruct (surrogate_plain d (or_intror Hd)) as [? ?].
    rewrite read_plain by assumption. unfold read_more.
    rewrite read_plain by assumption. unfold read_more.
    now rewrite IH.
  - rewrite Heq, <- app_assoc, read_quote_unit. unfold read_more.
    now rewrite IH.
Qed.

Lemma quote_prefix_free (s1 s2 r1 r2 : jsstring) :
  quote s1 ++ r1 = quote s2 ++ r2 -> s1 = s2 /\ r1 = r2.
Proof.
  unfold quote. cbn [app]. rewrite <- !app_assoc. cbn [app].
  intro H. injection H as H.
  pose proof (read_quote_chars s1 r1) as H1. rewrite H in H1.
  rewrite read_quote_chars in H1. injection H1 as -> ->. now split.
Qed.

Lemma stringify_property_prefix_free (kv1 kv2 : jsstring * jsstring)
    (r1 r2 : jsstring) :
  stringify_property kv1 ++ r1 = stringify_property kv2 ++ r2 ->
  kv1 = kv2 /\ r1 = r2.
Proof.
  destruct kv1 as [k1 v1], kv2 as [k2 v2]. unfold stringify_property.
  cbn [fst snd]. rewrite <- !app_assoc. intro H.
  apply quote_prefix_free in H. destruct H as [-> H].
  apply (app_inv_head [58%N]) in H.
  apply quote_prefix_free in H. destruct H as [-> ->]. now split.
Qed.

Lemma stringify_property_head (kv : jsstring * jsstring) (rest : jsstring) :
  exists t, stringify_property kv ++ rest = 34%N :: t.
Proof. unfold stringify_property, quote. cbn [app]. eauto. Qed.

Lemma join_comma_cons (kv : jsstring * jsstring)
    (t : list (jsstring * jsstring)) :
  join_comma (map stringify_property (kv :: t)) ++ [125%N]
  = stringify_property kv ++ after_first t.
Proof.
  destruct t as [|kv' t]; [reflexivity|].
  cbn [map join_comma after_first]. rewrite <- !app_assoc. reflexivity.
Qed.

Lemma join_comma_inj (p1 p2 : list (jsstring * jsstring)) :
  join_comma (map stringify_property p1) ++ [125%N]
  = join_comma (map stringify_property p2) ++ [125%N] ->
  p1 = p2.
Proof.
  revert p2. induction p1 as [|kv1 t1 IH]; intros p2 H.
  - destruct p2 as [|kv2 t2]; [reflexivity|]. exfalso.
    rewrite join_comma_cons in H.
    destruct (stringify_property_head kv2 (after_first t2)) as [t Ht].
    rewrite Ht in H. discriminate H.
  - destruct p2 as [|kv2 t2].
    + exfalso. rewrite join_comma_cons in H.
      destruct (stringify_property_head kv1 (after_first t1)) as [t Ht].
      rewrite Ht in H. discriminate H.
    + rewrite !join_comma_cons in H.
      apply stringify_property_prefix_free in H. destruct H as [-> H].
      f_equal. destruct t1 as [|a t1], t2 as [|b t2];
        cbn [after_first] in H; try discriminate H; [reflexivity|].
      apply IH. now injection H.
Qed.

Lemma JSON_stringify_inj (p1 p2 : list (jsstring * jsstring)) :
  JSON_stringify p1 = JSON_stringify p2 -> p1 = p2.
Proof.
  unfold JSON_stringify. intro H. apply (app_inv_head [123%N]) in H.
  now apply join_comma_inj.
Qed.

Lemma hex_digit_printable (d : N) : (32 <= hex_digit d)%N.
Proof. unfold hex_digit. destruct (d <? 10)%N; lia. Qed.

Lemma quote_unit_printable (c : N) :
  Forall (fun u => (32 <= u)%N) (quote_unit c).
Proof.
  unfold quote_unit.
  repeat match goal with
         | |- context [if (c =? ?k)%N then _ else _] =>
             destruct (N.eqb_spec c k);
             [repeat constructor; cbv beta; lia|]
         end.
  destruct ((c <? 32)%N || is_high_surrogate c || is_low_surrogate c) eqn:Hesc.
  - unfold unicode_escape.
    repeat constructor; cbv beta; try lia; apply hex_digit_printable.
  - constructor; [|constructor].
    apply orb_false_iff in Hesc. destruct Hesc as [Hesc _].
    apply orb_false_iff in Hesc. destruct Hesc as [Hesc _].
    apply N.ltb_ge in Hesc. exact Hesc.
Qed.

Lemma quote_printable (s : jsstring) : Forall (fun u => (32 <= u)%N) (quote s).
Proof.
  unfold quote. apply Forall_app. split; [repeat constructor; cbv beta; lia|].
  apply Forall_app. split; [|repeat constructor; cbv beta; lia].
  induction s as [|c d r Hc Hd Heq IH|c r Heq IH] using quote_chars_ind2.
  - constructor.
  - rewrite Heq.
    apply andb_true_iff in Hc. destruct Hc as [Hc _]. apply N.leb_le in Hc.
    apply andb_true_iff in Hd. destruct Hd as [Hd _]. apply N.leb_le in Hd.
    constructor; [cbv beta; lia|]. constructor; [cbv beta; lia|exact IH].
  - rewrite Heq. apply Forall_app. split; [apply quote_unit_printable|exact IH].
Qed.

(** X2. The JSON text of a request body holds no code unit below 32:
    every control character of a value is written as an escape. *)
Theorem request_body_has_no_control_characters
    (props : list (jsstring * jsstring)) :
  Forall (fun u => (32 <= u)%N) (JSON_stringify props).
Proof.
  unfold JSON_stringify. apply Forall_app.
  split; [repeat constructor; cbv beta; lia|].
  apply Forall_app. split; [|repeat constructor; cbv beta; lia].
  induction props as [|kv t IH]; [constructor|].
  assert (Hkv : Forall (fun u => (32 <= u)%N) (stringify_property kv)).
  { unfold stringify_property. apply Forall_app. split; [apply quote_printable|].
    apply Forall_app. split; [repeat constructor; cbv beta; lia|].
    apply quote_printable. }
  destruct t as [|kv' t]; [exact Hkv|].
  cbn [map join_comma]. apply Forall_app. split; [exact Hkv|].
  apply Forall_app. split; [repeat constructor; cbv beta; lia|exact IH].
Qed.

(** X1. The body of a request determines what was serialized: two
    property lists with the same JSON text are equal, so two certificate
    forms with the same body are the same form and two editor texts with
    the same body are the same text.  No quote, backslash or control
    character in a value can pass for another property. *)
Theorem request_body_determines_content :
  (forall p1 p2 : list (jsstring * jsstring),
     JSON_stringify p1 = JSON_stringify p2 -> p1 = p2)
  /\ (forall api1 api2 form1 form2,
        body (certificate_request api1 form1)
        = body (certificate_request api2 form2) -> form1 = form2)
  /\ (forall api1 api2 md1 md2,
        body (convert_request api1 md1) = body (convert_request api2 md2) ->
        md1 = md2).
Proof.
  split; [exact JSON_stringify_inj|split].
  - intros api1 api2 [n1 c1 d1 i1] [n2 c2 d2 i2] H.
    apply JSON_stringify_inj in H. now injection H as -> -> -> ->.
  - intros api1 api2 md1 md2 H.
    apply JSON_stringify_inj in H. now injection H.
Qed.


(** ** More on the string built-ins *)

Lemma replace_no_whitespace (s : jsstring) :
  Forall (fun c => is_whitespace c = false) (replace_scan underscore s)
  /\ Forall (fun c => is_whitespace c = false) (replace_run underscore s).
Proof.
  induction s as [|c r [IHscan IHrun]]; [split; constructor|].
  cbn [replace_scan replace_run].
  destruct (is_whitespace c) eqn:Hc; split;
    try (constructor; assumption); try assumption.
  apply Forall_app. split; [repeat constructor|assumption].
Qed.

Lemma replace_plain (s : jsstring) :
  existsb is_whitespace s = false -> replace_scan underscore s = s.
Proof.
  induction s as [|c r IH]; [reflexivity|].
  cbn [existsb replace_scan]. intro H. apply orb_false_iff in H.
  destruct H as [Hc Hr]. rewrite Hc. f_equal. now apply IH.
Qed.

Lemma existsb_false_Forall (s : jsstring) :
  Forall (fun c => is_whitespace c = false) s ->
  existsb is_whitespace s = false.
Proof.
  induction 1 as [|c r Hc _ IH]; [reflexivity|]. cbn. now rewrite Hc, IH.
Qed.

Lemma replace_length (s : jsstring) :
  length (replace_scan underscore s) <= length s
  /\ length (replace_run underscore s) <= length s.
Proof.
  induction s as [|c r [IHscan IHrun]]; [split; constructor|].
  cbn [replace_scan replace_run].
  destruct (is_whitespace c); split; cbn [length]; try lia.
  change (underscore ++ replace_run underscore r)
    with (95%N :: replace_run underscore r).
  cbn [length]. lia.
Qed.

(** X5. The name a certificate is saved under holds no whitespace,
    whatever the participant name. *)
Theorem certificate_filename_has_no_whitespace (name : jsstring) :
  Forall (fun c => is_whitespace c = false) (certificate_filename name).
Proof.
  unfold certificate_filename. apply Forall_app. split.
  - repeat constructor.
  - apply Forall_app. split; [apply replace_no_whitespace|repeat constructor].
Qed.

(** X6. Replacing the whitespace runs never lengthens a name, leaves a
    name without whitespace as it is (the file is then "Certificate_",
    the name, ".pdf"), and changes nothing when done a second time. *)
Theorem whitespace_replacement_is_stable (name : jsstring) :
  length (replace_whitespace_runs name) <= length name
  /\ (existsb is_whitespace name = false ->
      replace_whitespace_runs name = name
      /\ certificate_filename name = lit "Certificate_" ++ name ++ lit ".pdf")
  /\ replace_whitespace_runs (replace_whitespace_runs name)
     = replace_whitespace_runs name.
Proof.
  unfold replace_whitespace_runs, certificate_filename.
  split; [apply replace_length|split].
  - intro H. unfold replace_whitespace_runs.
    rewrite (replace_plain name H). now split.
  - apply replace_plain, existsb_false_Forall, replace_no_whitespace.
Qed.

Lemma trimStart_split (s : jsstring) :
  exists pre, s = pre ++ trimStart s /\ forallb is_whitespace pre = true.
Proof.
  induction s as [|c r [pre [Hs Hpre]]]; [now exists []|].
  cbn [trimStart]. destruct (is_whitespace c) eqn:Hc.
  - exists (c :: pre). cbn. rewrite Hc, Hpre. split; [now f_equal|reflexivity].
  - now exists [].
Qed.

(** X4. [trim] cuts whitespace off both ends and nothing else: the
    string is a whitespace prefix, the trimmed string and a whitespace
    suffix; the trimmed string neither starts nor ends with whitespace,
    and trimming it again changes nothing. *)
Theorem trim_cuts_both_ends (s : jsstring) :
  (exists pre post,
     s = pre ++ trim s ++ post
     /\ forallb is_whitespace pre = true
     /\ forallb is_whitespace post = true)
  /\ (forall c r, trim s = c :: r -> is_whitespace c = false)
  /\ (forall c r, trim s = r ++ [c] -> is_whitespace c = false)
  /\ trim (trim s) = trim s.
Proof.
  assert (Hhead : forall c r, trim s = c :: r -> is_whitespace c = false).
  { unfold trim, trimEnd. intros c r H.
    destruct (trimStart_split (rev (trimStart s))) as [post [Hrev Hpost]].
    apply (f_equal (@rev N)) in Hrev. rewrite rev_involutive, rev_app_distr in Hrev.
    rewrite H in Hrev. destruct (trimStart s) as [|d t] eqn:Hs.
    - discriminate Hrev.
    - cbn [app] in Hrev. injection Hrev as -> _.
      exact (trimStart_head s c t Hs). }
  assert (Hlast : forall c r, trim s = r ++ [c] -> is_whitespace c = false).
  { unfold trim, trimEnd. intros c r H.
    apply (f_equal (@rev N)) in H. rewrite rev_involutive, rev_app_distr in H.
    cbn [rev app] in H. exact (trimStart_head _ _ _ H). }
  split; [|split; [exact Hhead|split; [exact Hlast|]]].
  - destruct (trimStart_split s) as [pre [Hs Hpre]].
    destruct (trimStart_split (rev (trimStart s))) as [post [Hrev Hpost]].
    exists pre, (rev post). split; [|split; [exact Hpre|]].
    + unfold trim, trimEnd. rewrite <- rev_app_distr, <- Hrev, rev_involutive.
      exact Hs.
    + now rewrite forallb_rev.
  - destruct (trim s) as [|c r] eqn:Ht; [reflexivity|].
    assert (Hstart : trimStart (c :: r) = c :: r).
    { cbn [trimStart]. now rewrite (Hhead c r eq_refl). }
    unfold trim at 1. rewrite Hstart. unfold trimEnd.
    destruct (rev (c :: r)) as [|d t] eqn:Hr.
    + apply (f_equal (@rev N)) in Hr. rewrite rev_involutive in Hr.
      discriminate Hr.
    + assert (Hd : is_whitespace d = false).
      { apply (Hlast d (rev t)). apply (f_equal (@rev N)) in Hr.
        rewrite rev_involutive in Hr. exact Hr. }
      cbn [trimStart]. rewrite Hd, <- Hr. apply rev_involutive.
Qed.

(** X3. A certificate submission ends with the message "Please enter
    participant name" exactly when every code unit of the name is
    whitespace (the empty name included). *)
Theorem blank_name_is_refused (form : CertForm) (w : World) :
  certError (react (snd (generateCertificate form w)))
  = Some (lit "Please enter participant name")
  <-> forallb is_whitespace (participant_name form) = true.
Proof.
  rewrite <- trim_blank_iff, generateCertificate_eq. unfold first_missing.
  destruct (truthy (trim (participant_name form))); cbn [negb].
  - split; [|discriminate].
    destruct (truthy (course_name form)); cbn [negb];
      [destruct (truthy (completion_date form)); cbn [negb]|];
      cbn; intro H; discriminate H.
  - split; reflexivity.
Qed.

(** ** What a run shows and leaves behind *)


(** X8. A run ends in one of two ways.  With a message on display:
    the browser saw one [console.error] carrying that message and nothing
    else.  With none: the response was ok, its blob was read, and the
    browser saw exactly the five calls of the download.  The certificate
    form sets its success flag in the second case only. *)
Theorem run_fails_or_downloads (sc : Script) (w : World) :
  (let w' := snd (run_convertToPdf sc w) in
   match error (react w') with
   | Some msg =>
       journal (dom w')
       = journal (dom w)
         ++ [E_console_error (lit "Error converting to PDF:") msg]
   | None =>
       exists status blob,
         on_fetch sc = FetchResponse status /\ response_ok status = true
         /\ on_blob sc = BlobResolved blob
         /\ journal (dom w')
            = journal (dom w)
              ++ download_effects (dom w) blob (lit "markdown-export.pdf")
   end)
  /\ (let w' := snd (run_generateCertificate sc w) in
      let form := certForm (react w) in
      match certError (react w') with
      | Some msg =>
          certSuccess (react w') = false
          /\ journal (dom w')
             = journal (dom w)
               ++ [E_console_error (lit "Error generating certificate:") msg]
      | None =>
          certSuccess (react w') = true
          /\ exists status blob,
               first_missing form = None
               /\ on_fetch sc = FetchResponse status
               /\ response_ok status = true
               /\ on_blob sc = BlobResolved blob
               /\ journal (dom w')
                  = journal (dom w)
                    ++ download_effects (dom w) blob
                         (certificate_filename (participant_name form))
      end).
Proof.
  split.
  - rewrite run_convertToPdf_eq. cbn [snd].
    destruct (on_fetch sc) as [reason|status] eqn:Hfetch; [reflexivity|].
    destruct (response_ok status) eqn:Hok; [|reflexivity].
    destruct (on_blob sc) as [reason|blob] eqn:Hblob; [reflexivity|].
    cbn. exists status, blob. auto.
  - rewrite run_generateCertificate_eq. cbn [snd].
    destruct (first_missing (certForm (react w))) eqn:Hvalid;
      [split; reflexivity|].
    destruct (on_fetch sc) as [reason|status] eqn:Hfetch;
      [split; reflexivity|].
    destruct (response_ok status) eqn:Hok; [|split; reflexivity].
    destruct (on_blob sc) as [reason|blob] eqn:Hblob; [split; reflexivity|].
    cbn. split; [reflexivity|]. exists status, blob. auto.
Qed.

(** X10. A conversion run changes neither the editor text, the tab,
    the certificate form nor the certificate's flag and messages; a
    certificate run changes neither the editor text, the tab, the form it
    submitted nor the conversion's flag and message. *)
Theorem forms_do_not_interfere (sc : Script) (w : World) :
  (let after := react (snd (run_convertToPdf sc w)) in
   markdown after = markdown (react w)
   /\ activeTab after = activeTab (react w)
   /\ certForm after = certForm (react w)
   /\ isGenerating after = isGenerating (react w)
   /\ certError after = certError (react w)
   /\ certSuccess after = certSuccess (react w))
  /\ (let after := react (snd (run_generateCertificate sc w)) in
      markdown after = markdown (react w)
      /\ activeTab after = activeTab (react w)
      /\ certForm after = certForm (react w)
      /\ isConverting after = isConverting (react w)
      /\ error after = error (react w)).
Proof.
  split.
  - rewrite run_convertToPdf_eq. cbn [snd].
    destruct (on_fetch sc) as [reason|status]; [repeat split|].
    destruct (response_ok status); [|repeat split].
    destruct (on_blob sc); repeat split.
  - rewrite run_generateCertificate_eq. cbn [snd].
    destruct (first_missing (certForm (react w))); [repeat split|].
    destruct (on_fetch sc) as [reason|status]; [repeat split|].
    destruct (response_ok status); [|repeat split].
    destruct (on_blob sc); repeat split.
Qed.

(** ** More on the event loop *)

Lemma step_ClickDownload_idle (w : World) :
  activeTab (react w) = TabMarkdown -> isConverting (react w) = false ->
  step w ClickDownload
  = with_convTasks (convTasks w ++ [AwaitFetch])
      (conv_started (markdown (react w)) w).
Proof.
  intros Htab Hidle. unfold step, download_btn_disabled.
  rewrite Htab, Hidle. cbn [tab_eqb andb negb].
  rewrite convertToPdf_eq. reflexivity.
Qed.

Lemma step_SubmitCertForm_idle (w : World) :
  activeTab (react w) = TabCertificate -> isGenerating (react w) = false ->
  step w SubmitCertForm
  = match first_missing (certForm (react w)) with
    | Some msg => cert_failed msg (cert_cleared w)
    | None =>
        with_certTasks (certTasks w ++ [(certForm (react w), AwaitFetch)])
          (cert_started (certForm (react w)) w)
    end.
Proof.
  intros Htab Hidle. unfold step, cert_submit_btn_disabled.
  rewrite Htab, Hidle. cbn [tab_eqb andb negb].
  rewrite generateCertificate_eq.
  destruct (first_missing (certForm (react w))); reflexivity.
Qed.

Lemma step_SettleConvert_only (w : World) (p : Await) (s : Settlement) :
  convTasks w = [p] ->
  step w (SettleConvert 0 s)
  = match convertToPdf_resume p s w with
    | (Suspended p', w') => with_convTasks [p'] w'
    | (_, w') => with_convTasks [] w'
    end.
Proof.
  intro Htasks. unfold step. rewrite Htasks. cbn [nth_error].
  rewrite convertToPdf_resume_eq.
  settle_cases p s; cbn; rewrite ?Htasks; reflexivity.
Qed.

Lemma step_SettleCertificate_only (w : World) (form : CertForm) (p : Await)
    (s : Settlement) :
  certTasks w = [(form, p)] ->
  step w (SettleCertificate 0 s)
  = match generateCertificate_resume form p s w with
    | (Suspended p', w') => with_certTasks [(form, p')] w'
    | (_, w') => with_certTasks [] w'
    end.
Proof.
  intro Htasks. unfold step. rewrite Htasks. cbn [nth_error].
  rewrite generateCertificate_resume_eq.
  settle_cases p s; cbn; rewrite ?Htasks; reflexivity.
Qed.

(** X14. An edit of the certificate form while its request is in
    flight is kept in the form, but the file is saved under the name that
    was submitted, the request is not sent again, and the success message
    is shown. *)
Theorem edits_in_flight_do_not_rename (w : World) (f : CertField)
    (v : jsstring) (status : N) (blob : Blob) :
  activeTab (react w) = TabCertificate -> isGenerating (react w) = false ->
  certTasks w = [] -> first_missing (certForm (react w)) = None ->
  response_ok status = true -> input_accepts f v = true ->
  let form := certForm (react w) in
  let w' := run w [ SubmitCertForm; EditCertField f v;
                    SettleCertificate 0 (OfFetch (FetchResponse status));
                    SettleCertificate 0 (OfBlob (BlobResolved blob)) ] in
  certForm (react w') = spread_with form f v
  /\ network w'
     = network w ++ [certificate_request (api_url w (lit "/api/certificate"))
                                         form]
  /\ saved_files (journal (dom w'))
     = saved_files (journal (dom w))
       ++ [(certificate_filename (participant_name form), Some blob)]
  /\ certSuccess (react w') = true
  /\ isGenerating (react w') = false.
Proof.
  intros Htab Hidle Hnone Hvalid Hok Hacc form w'. subst form w'.
  unfold run. cbn [fold_left].
  rewrite (step_SubmitCertForm_idle w Htab Hidle), Hvalid, Hnone. cbn [app].
  set (form := certForm (react w)).
  set (w1 := with_certTasks [(form, AwaitFetch)] (cert_started form w)).
  assert (Hedit : step w1 (EditCertField f v) = snd (updateCertField f v w1)).
  { unfold step. replace (activeTab (react w1)) with TabCertificate
      by (symmetry; exact Htab).
    rewrite Hacc. reflexivity. }
  rewrite Hedit. set (w2 := snd (updateCertField f v w1)).
  rewrite (step_SettleCertificate_only w2 form AwaitFetch) by reflexivity.
  rewrite generateCertificate_resume_eq, Hok.
  rewrite (step_SettleCertificate_only _ form AwaitBlob) by reflexivity.
  rewrite generateCertificate_resume_eq.
  repeat split.
  cbn -[saved_files after_download certificate_filename].
  apply saved_files_after_download.
Qed.

Lemma step_display_invariant (w : World) (ev : Event) :
  flow_invariant w -> display_invariant w -> display_invariant (step w ev).
Proof.
  intros [Hconv Hcert] [Hc [Hg Hs]].
  assert (Hkeep : display_invariant w) by exact (conj Hc (conj Hg Hs)).
  destruct ev as [t|v| |f v| |k s|k s]; unfold step.
  - exact Hkeep.
  - destruct (tab_eqb _ _); exact Hkeep.
  - destruct (_ && _); [|exact Hkeep].
    rewrite convertToPdf_eq.
    repeat split; cbn; intros; try reflexivity; try discriminate;
      try (apply Hg; assumption); try (apply Hs; assumption).
  - destruct (_ && _); [|exact Hkeep].
    repeat split; cbn; intros; try reflexivity; try discriminate;
      try (apply Hc; assumption).
  - destruct (_ && _); [|exact Hkeep].
    rewrite generateCertificate_eq.
    destruct (first_missing (certForm (react w)));
      repeat split; cbn; intros; try reflexivity; try discriminate;
      try (apply Hc; assumption).
  - destruct (nth_error (convTasks w) k) as [p|] eqn:Hk; [|exact Hkeep].
    rewrite convertToPdf_resume_eq.
    settle_cases p s;
      repeat split; cbn; intros; try reflexivity; try discriminate;
      try (apply Hc; assumption); try (apply Hg; assumption);
      try (apply Hs; assumption).
  - destruct (nth_error (certTasks w) k) as [[form p]|] eqn:Hk;
      [|exact Hkeep].
    assert (Hbusy : isGenerating (react w) = true).
    { destruct (certTasks w) as [|q [|q' r]]; cbn in Hcert;
        [destruct k; discriminate Hk|exact Hcert|easy]. }
    destruct (Hg Hbusy) as [Hnoerr Hnosucc].
    rewrite generateCertificate_resume_eq.
    settle_cases p s;
      repeat split; cbn; intros; try reflexivity; try discriminate;
      try (apply Hc; assumption); try assumption; try congruence.
Qed.

(** X11. In every reachable state a busy conversion form shows no
    error, a busy certificate form shows neither error nor success, and
    the certificate form never shows its success and an error together. *)
Theorem busy_form_shows_no_message (prod : bool) (welcome today : jsstring)
    (page : list N) (w : World) :
  reachable (initial_world prod welcome today page) w ->
  (isConverting (react w) = true -> error (react w) = None)
  /\ (isGenerating (react w) = true ->
      certError (react w) = None /\ certSuccess (react w) = false)
  /\ (certSuccess (react w) = true -> certError (react w) = None).
Proof.
  intro Hreach.
  enough (H : flow_invariant w /\ display_invariant w) by apply H.
  induction Hreach as [|w ev _ [IHflow IHshow]].
  - split; [apply initial_flow_invariant|].
    repeat split; cbn; intros; try reflexivity; discriminate.
  - split; [now apply step_flow_invariant|now apply step_display_invariant].
Qed.

Lemma step_dom_frame (w : World) (ev : Event) :
  dom_wf (dom w) ->
  body_children (dom (step w ev)) = body_children (dom w)
  /\ object_urls (dom (step w ev)) = object_urls (dom w).
Proof.
  intro Hwf.
  assert (Hsave : forall blob name,
            body_children (after_download (dom w) blob name)
            = body_children (dom w)
            /\ object_urls (after_download (dom w) blob name)
               = object_urls (dom w)).
  { intros blob name.
    destruct (after_download_restores (dom w) blob name Hwf) as [? [? _]].
    now split. }
  destruct ev as [t|v| |f v| |k s|k s]; unfold step.
  - now split.
  - destruct (tab_eqb _ _); now split.
  - destruct (_ && _); [|now split]. rewrite convertToPdf_eq. now split.
  - destruct (_ && _); now split.
  - destruct (_ && _); [|now split]. rewrite generateCertificate_eq.
    destruct (first_missing _); now split.
  - destruct (nth_error (convTasks w) k) as [p|]; [|now split].
    rewrite convertToPdf_resume_eq.
    settle_cases p s; try (now split). apply Hsave.
  - destruct (nth_error (certTasks w) k) as [[form p]|]; [|now split].
    rewrite generateCertificate_resume_eq.
    settle_cases p s; try (now split). apply Hsave.
Qed.

(** X12. In every reachable state the document body holds exactly the
    nodes it held after the first render and no object URL is live. *)
Theorem page_is_left_as_found (prod : bool) (welcome today : jsstring)
    (page : list N) (w : World) :
  reachable (initial_world prod welcome today page) w ->
  body_children (dom w) = page /\ object_urls (dom w) = [].
Proof.
  intro Hreach.
  pose proof (reachable_dom_wf prod welcome today page) as Hwf.
  induction Hreach as [|w ev Hreach [IHbody IHurls]]; [now split|].
  destruct (step_dom_frame w ev (Hwf w Hreach)) as [-> ->]. now split.
Qed.

(** X13. An event leaves the requests sent as they are, unless it is a
    click on the download button, which adds one POST of the editor text
    to /api/convert, or a submission of the certificate form, which adds
    one POST of the form to /api/certificate; a settlement, an edit or a
    tab switch never sends (no retry). *)
Theorem only_submissions_send (w : World) (ev : Event) :
  network (step w ev) = network w
  \/ (ev = ClickDownload
      /\ network (step w ev)
         = network w
           ++ [mkRequest (api_url w (lit "/api/convert")) (lit "POST")
                 [(lit "Content-Type", lit "application/json")]
                 (JSON_stringify (convert_request_properties
                                    (markdown (react w))))])
  \/ (ev = SubmitCertForm
      /\ network (step w ev)
         = network w
           ++ [mkRequest (api_url w (lit "/api/certificate")) (lit "POST")
                 [(lit "Content-Type", lit "application/json")]
                 (JSON_stringify (certForm_properties (certForm (react w))))]).
Proof.
  destruct ev as [t|v| |f v| |k s|k s]; unfold step.
  - now left.
  - destruct (tab_eqb _ _); now left.
  - destruct (_ && _); [|now left]. rewrite convertToPdf_eq.
    right. left. now split.
  - destruct (_ && _); now left.
  - destruct (_ && _); [|now left]. rewrite generateCertificate_eq.
    destruct (first_missing _); [now left|]. right. right. now split.
  - destruct (nth_error (convTasks w) k) as [p|]; [|now left].
    rewrite convertToPdf_resume_eq. settle_cases p s; now left.
  - destruct (nth_error (certTasks w) k) as [[form p]|]; [|now left].
    rewrite generateCertificate_resume_eq. settle_cases p s; now left.
Qed.

(** X15. Switching tabs and the settlement of an awaited promise
    commute: a run goes on in the same way while its tab is hidden. *)
Theorem tab_switch_commutes_with_settlement (w : World) (t : Tab) (k : nat)
    (s : Settlement) :
  step (step w (ClickTab t)) (SettleConvert k s)
  = step (step w (SettleConvert k s)) (ClickTab t)
  /\ step (step w (ClickTab t)) (SettleCertificate k s)
     = step (step w (SettleCertificate k s)) (ClickTab t).
Proof.
  split; unfold step; cbn [convTasks certTasks setActiveTab update with_react snd].
  - destruct (nth_error (convTasks w) k) as [p|]; [|reflexivity].
    rewrite !convertToPdf_resume_eq. settle_cases p s; reflexivity.
  - destruct (nth_error (certTasks w) k) as [[form p]|]; [|reflexivity].
    rewrite !generateCertificate_resume_eq. settle_cases p s; reflexivity.
Qed.

(** X16. In every reachable state the course of the form is empty or
    one of [COURSES], and every request sent is a conversion request or a
    certificate request whose course is one of [COURSES]. *)
Theorem sent_courses_are_enumerated (prod : bool) (welcome today : jsstring)
    (page : list N) (w : World) :
  reachable (initial_world prod welcome today page) w ->
  (course_name (certForm (react w)) = []
   \/ In (course_name (certForm (react w))) COURSES)
  /\ forall rq, In rq (network w) ->
       (exists api md, rq = convert_request api md)
       \/ (exists api form,
             rq = certificate_request api form
             /\ In (course_name form) COURSES).
Proof.
  intro Hreach.
  destruct (client_sends_enumerated_courses prod welcome today page w Hreach)
    as [Hform Hsent].
  split.
  - destruct Hform as [Hempty|Hin]; [left; now symmetry|now right].
  - intros rq Hin. rewrite Forall_forall in Hsent. exact (Hsent rq Hin).
Qed.

Lemma replace_nth_length {A : Type} (k : nat) (x : A) (l : list A) :
  length (replace_nth k x l) = length l.
Proof.
  revert k. induction l as [|y l IH]; intro k; [now destruct k|].
  destruct k; cbn; [reflexivity|now rewrite IH].
Qed.

Lemma remove_nth_length {A : Type} (k : nat) (l : list A) (x : A) :
  nth_error l k = Some x -> S (length (remove_nth k l)) = length l.
Proof.
  revert k. induction l as [|y l IH]; intros k H; [destruct k; discriminate|].
  destruct k; cbn in *; [reflexivity|]. now rewrite (IH k H).
Qed.

Lemma saved_files_failed (msg : jsstring) (w : World) :
  saved_files (journal (dom (conv_failed msg w)))
  = saved_files (journal (dom w))
  /\ saved_files (journal (dom (cert_failed msg w)))
     = saved_files (journal (dom w)).
Proof.
  unfold conv_failed, cert_failed, convert_finally, convert_catch,
    certificate_finally, certificate_catch.
  cbn -[saved_files log]. split; apply saved_files_logged.
Qed.

Lemma saved_files_saved (form : CertForm) (blob : Blob) (w : World) :
  length (saved_files (journal (dom (conv_saved blob w))))
  = S (length (saved_files (journal (dom w))))
  /\ length (saved_files (journal (dom (cert_saved form blob w))))
     = S (length (saved_files (journal (dom w)))).
Proof.
  unfold conv_saved, cert_saved.
  cbn -[saved_files after_download certificate_filename].
  rewrite !saved_files_after_download, !length_app. cbn. split; lia.
Qed.

Lemma resume_accounted (form : CertForm) (p : Await) (s : Settlement)
    (w : World) :
  (let r := convertToPdf_resume p s w in
   network (snd r) = network w /\ convTasks (snd r) = convTasks w
   /\ certTasks (snd r) = certTasks w
   /\ match fst r with
      | Suspended _ => snd r = w
      | _ => length (saved_files (journal (dom (snd r))))
             <= S (length (saved_files (journal (dom w))))
      end)
  /\ (let r := generateCertificate_resume form p s w in
      network (snd r) = network w /\ convTasks (snd r) = convTasks w
      /\ certTasks (snd r) = certTasks w
      /\ match fst r with
         | Suspended _ => snd r = w
         | _ => length (saved_files (journal (dom (snd r))))
                <= S (length (saved_files (journal (dom w))))
         end).
Proof.
  assert (Hconv_failed : forall msg,
            length (saved_files (journal (dom (conv_failed msg w))))
            <= S (length (saved_files (journal (dom w))))).
  { intro msg. destruct (saved_files_failed msg w) as [-> _]. lia. }
  assert (Hcert_failed : forall msg,
            length (saved_files (journal (dom (cert_failed msg w))))
            <= S (length (saved_files (journal (dom w))))).
  { intro msg. destruct (saved_files_failed msg w) as [_ ->]. lia. }
  assert (Hconv_saved : forall blob,
            length (saved_files (journal (dom (conv_saved blob w))))
            <= S (length (saved_files (journal (dom w))))).
  { intro blob. destruct (saved_files_saved form blob w) as [-> _]. lia. }
  assert (Hcert_saved : forall blob,
            length (saved_files (journal (dom (cert_saved form blob w))))
            <= S (length (saved_files (journal (dom w))))).
  { intro blob. destruct (saved_files_saved form blob w) as [_ ->]. lia. }
  rewrite convertToPdf_resume_eq, generateCertificate_resume_eq.
  settle_cases p s; cbn [fst snd];
    (split; (split; [exact eq_refl|split; [exact eq_refl|split;
       [exact eq_refl|]]]));
    lazymatch goal with
    | |- _ = _ => exact eq_refl
    | |- context [conv_failed ?m w] => exact (Hconv_failed m)
    | |- context [cert_failed ?m w] => exact (Hcert_failed m)
    | |- context [conv_saved ?b w] => exact (Hconv_saved b)
    | |- context [cert_saved form ?b w] => exact (Hcert_saved b)
    end.
Qed.

Lemma step_accounted (w : World) (ev : Event) :
  accounted w -> accounted (step w ev).
Proof.
  unfold accounted. intro H.
  destruct ev as [t|v| |f v| |k s|k s]; unfold step.
  - exact H.
  - destruct (tab_eqb _ _); exact H.
  - destruct (_ && _); [|exact H]. rewrite convertToPdf_eq.
    cbn. rewrite !length_app. cbn. lia.
  - destruct (_ && _); exact H.
  - destruct (_ && _); [|exact H]. rewrite generateCertificate_eq.
    destruct (first_missing _) as [msg|].
    + destruct (saved_files_failed msg (cert_cleared w)) as [_ ->]. exact H.
    + cbn. rewrite !length_app. cbn. lia.
  - destruct (nth_error (convTasks w) k) as [p|] eqn:Hk; [|exact H].
    pose proof (remove_nth_length k (convTasks w) p Hk) as Hrem.
    destruct (resume_accounted (mkCertForm [] [] [] []) p s w)
      as [[Hnet [Hct [Hcert Hres]]] _].
    destruct (convertToPdf_resume p s w) as [[[]|e|p'] w'];
      cbn [fst snd] in *; cbn [with_convTasks convTasks certTasks network dom];
      rewrite ?replace_nth_length, ?Hnet, ?Hct, ?Hcert; subst; lia.
  - destruct (nth_error (certTasks w) k) as [[form p]|] eqn:Hk; [|exact H].
    pose proof (remove_nth_length k (certTasks w) (form, p) Hk) as Hrem.
    destruct (resume_accounted form p s w)
      as [_ [Hnet [Hct [Hcert Hres]]]].
    destruct (generateCertificate_resume form p s w) as [[[]|e|p'] w'];
      cbn [fst snd] in *; cbn [with_certTasks convTasks certTasks network dom];
      rewrite ?replace_nth_length, ?Hnet, ?Hct, ?Hcert; subst; lia.
Qed.

(** X17. In every reachable state the files saved and the runs still
    suspended are together no more than the requests sent. *)
Theorem every_download_has_its_request (prod : bool)
    (welcome today : jsstring) (page : list N) (w : World) :
  reachable (initial_world prod welcome today page) w ->
  length (saved_files (journal (dom w))) + length (convTasks w)
  + length (certTasks w) <= length (network w).
Proof.
  induction 1 as [|w ev _ IH]; [cbn; lia|].
  now apply step_accounted.
Qed.

(** X19. After a conversion that failed on the network the form shows
    the reason and is idle; the next click sends a second request with
    the editor text of that moment and clears the message. *)
Theorem failed_conversion_can_be_retried (w : World) (reason v : jsstring) :
  activeTab (react w) = TabMarkdown -> isConverting (react w) = false ->
  convTasks w = [] ->
  let failed := run w [ ClickDownload;
                        SettleConvert 0 (OfFetch (FetchRejected reason)) ] in
  let again := run failed [ EditMarkdown v; ClickDownload ] in
  (error (react failed) = Some reason /\ isConverting (react failed) = false
   /\ convTasks failed = [])
  /\ (error (react again) = None /\ isConverting (react again) = true
      /\ convTasks again = [AwaitFetch]
      /\ network again
         = network w
           ++ [ convert_request (api_url w (lit "/api/convert"))
                                (markdown (react w));
                convert_request (api_url w (lit "/api/convert")) v ]).
Proof.
  intros Htab Hidle Hnone failed again. subst again failed.
  unfold run. cbn [fold_left].
  rewrite (step_ClickDownload_idle w Htab Hidle), Hnone. cbn [app].
  rewrite (step_SettleConvert_only _ AwaitFetch) by reflexivity.
  rewrite convertToPdf_resume_eq.
  split; [repeat split|].
  set (w2 := with_convTasks [] _).
  assert (Hedit : step w2 (EditMarkdown v) = snd (setMarkdown v w2)).
  { unfold step. replace (activeTab (react w2)) with TabMarkdown
      by (symmetry; exact Htab). reflexivity. }
  rewrite Hedit.
  rewrite step_ClickDownload_idle by (try exact Htab; reflexivity).
  repeat split. cbn. rewrite <- app_assoc. reflexivity.
Qed.

(** X9. After a conversion run the error box is rendered only for a
    failure with a non-empty message, and then nothing was saved; when no
    box is rendered, either one file was saved or the run failed with the
    empty message, which an error body whose [detail] is truthy but
    coerces to the empty string produces: such a failure shows nothing. *)
Theorem error_box_after_run (sc : Script) (w : World) :
  let w' := snd (run_convertToPdf sc w) in
  let saved := saved_files (journal (dom w')) in
  (box_visible (error (react w')) = true ->
   saved = saved_files (journal (dom w))
   /\ exists msg, error (react w') = Some msg /\ msg <> [])
  /\ (box_visible (error (react w')) = false ->
      (exists blob,
         saved = saved_files (journal (dom w))
                 ++ [(lit "markdown-export.pdf", Some blob)])
      \/ (error (react w') = Some []
          /\ saved = saved_files (journal (dom w))))
  /\ (forall status,
        on_fetch sc = FetchResponse status -> response_ok status = false ->
        on_json sc = JsonResolved (ED_value (Some [])) ->
        box_visible (error (react w')) = false
        /\ saved = saved_files (journal (dom w))).
Proof.
  intros w' saved. subst saved w'.
  rewrite run_convertToPdf_eq. cbn [snd].
  set (w1 := conv_started (markdown (react w)) w).
  assert (Hfailed : forall msg,
            error (react (conv_failed msg w1)) = Some msg
            /\ saved_files (journal (dom (conv_failed msg w1)))
               = saved_files (journal (dom w))).
  { intro msg. split; [reflexivity|].
    now destruct (saved_files_failed msg w1) as [-> _]. }
  assert (Hsaved : forall blob,
            error (react (conv_saved blob w1)) = None
            /\ saved_files (journal (dom (conv_saved blob w1)))
               = saved_files (journal (dom w))
                 ++ [(lit "markdown-export.pdf", Some blob)]).
  { intro blob. split; [reflexivity|].
    unfold conv_saved. cbn -[saved_files after_download].
    apply saved_files_after_download. }
  assert (Hcase : forall msg,
            (box_visible (Some msg) = true ->
             saved_files (journal (dom w)) = saved_files (journal (dom w))
             /\ exists m, Some msg = Some m /\ m <> [])
            /\ (box_visible (Some msg) = false ->
                (exists blob,
                   saved_files (journal (dom w))
                   = saved_files (journal (dom w))
                     ++ [(lit "markdown-export.pdf", Some blob)])
                \/ (Some msg = Some []
                    /\ saved_files (journal (dom w))
                       = saved_files (journal (dom w))))).
  { intro msg. split.
    - intro Hvis. split; [reflexivity|]. exists msg. split; [reflexivity|].
      destruct msg; [discriminate Hvis|discriminate].
    - intro Hvis. right. destruct msg; [now split|discriminate Hvis]. }
  split; [|split].
  - destruct (on_fetch sc) as [reason|status].
    { destruct (Hfailed reason) as [-> ->]. apply Hcase. }
    destruct (response_ok status).
    + destruct (on_blob sc) as [reason|blob].
      * destruct (Hfailed reason) as [-> ->]. apply Hcase.
      * destruct (Hsaved blob) as [-> _]. discriminate.
    + destruct (Hfailed (response_error_message (on_json sc) status))
        as [-> ->]. apply Hcase.
  - destruct (on_fetch sc) as [reason|status].
    { destruct (Hfailed reason) as [-> ->]. apply Hcase. }
    destruct (response_ok status).
    + destruct (on_blob sc) as [reason|blob].
      * destruct (Hfailed reason) as [-> ->]. apply Hcase.
      * destruct (Hsaved blob) as [_ ->]. intros _. left. now exists blob.
    + destruct (Hfailed (response_error_message (on_json sc) status))
        as [-> ->]. apply Hcase.
  - intros status -> -> ->. cbn [response_error_message].
    destruct (Hfailed []) as [-> ->]. now split.
Qed.


Lemma In_replace_nth {A : Type} (k : nat) (x y : A) (l : list A) :
  In y (replace_nth k x l) -> y = x \/ In y l.
Proof.
  revert k. induction l as [|z l IH]; intros k H; [destruct k; easy|].
  destruct k; cbn in H.
  - destruct H as [<-|H]; [now left|right; now right].
  - destruct H as [<-|H]; [right; now left|].
    destruct (IH k H); [now left|right; now right].
Qed.

Lemma In_remove_nth {A : Type} (k : nat) (y : A) (l : list A) :
  In y (remove_nth k l) -> In y l.
Proof.
  revert k. induction l as [|z l IH]; intros k H; [destruct k; easy|].
  destruct k; cbn in H; [now right|].
  destruct H as [<-|H]; [now left|right; exact (IH k H)].
Qed.

Lemma traceable_weaken (w w' : World) :
  env_PROD w' = env_PROD w ->
  (forall rq, In rq (network w) -> In rq (network w')) ->
  forall form, sent_form w form -> sent_form w' form.
Proof.
  intros Hprod Hnet form H. unfold sent_form, api_url in *.
  rewrite Hprod. now apply Hnet.
Qed.

Lemma step_traceable (w : World) (ev : Event) :
  traceable w -> traceable (step w ev).
Proof.
  intros [Htasks Hsaved].
  assert (Hkeep : traceable w) by exact (conj Htasks Hsaved).
  assert (Hsame : forall w', env_PROD w' = env_PROD w ->
            network w' = network w -> certTasks w' = certTasks w ->
            saved_files (journal (dom w')) = saved_files (journal (dom w)) ->
            traceable w').
  { intros w' Hprod Hnet Hct Hsf. unfold traceable, sent_form, api_url.
    now rewrite Hprod, Hnet, Hct, Hsf. }
  destruct ev as [t|v| |f v| |k s|k s]; unfold step.
  - exact Hkeep.
  - destruct (tab_eqb _ _); exact Hkeep.
  - destruct (_ && _); [|exact Hkeep]. rewrite convertToPdf_eq.
    set (w' := with_convTasks _ _).
    assert (Hw : forall form, sent_form w form -> sent_form w' form).
    { apply traceable_weaken; [reflexivity|].
      intros rq Hin. cbn. apply in_or_app. now left. }
    split.
    + eapply Forall_impl; [|exact Htasks]. intros t. apply Hw.
    + eapply Forall_impl; [|exact Hsaved].
      intros f [Hsome [Hexp|[form [Hsent Hname]]]]; split; auto.
      right. exists form. split; [now apply Hw|exact Hname].
  - destruct (_ && _); exact Hkeep.
  - destruct (_ && _); [|exact Hkeep]. rewrite generateCertificate_eq.
    destruct (first_missing _) as [msg|].
    + apply Hsame; try reflexivity.
      apply (saved_files_failed msg (cert_cleared w)).
    + set (w' := with_certTasks _ _).
      assert (Hw : forall form, sent_form w form -> sent_form w' form).
      { apply traceable_weaken; [reflexivity|].
        intros rq Hin. cbn. apply in_or_app. now left. }
      split.
      * cbn [certTasks w' with_certTasks]. apply Forall_app. split.
        -- eapply Forall_impl; [|exact Htasks]. intros t. apply Hw.
        -- constructor; [|constructor]. cbn [fst].
           unfold sent_form. cbn. apply in_or_app. right. now left.
      * eapply Forall_impl; [|exact Hsaved].
        intros f [Hsome [Hexp|[form [Hsent Hname]]]]; split; auto.
        right. exists form. split; [now apply Hw|exact Hname].
  - destruct (nth_error (convTasks w) k) as [p|]; [|exact Hkeep].
    rewrite convertToPdf_resume_eq.
    settle_cases p s;
      lazymatch goal with
      | |- traceable (with_convTasks _ (conv_failed ?m w)) =>
          apply Hsame;
          [exact eq_refl|exact eq_refl|exact eq_refl
          |exact (proj1 (saved_files_failed m w))]
      | |- traceable (with_convTasks _ (conv_saved ?b w)) => idtac
      | |- traceable (with_convTasks _ w) =>
          apply Hsame; exact eq_refl
      end.
    split; [exact Htasks|].
    cbn -[saved_files after_download EXPORT_NAME].
    rewrite saved_files_after_download. apply Forall_app. split.
    + exact Hsaved.
    + constructor; [|constructor]. split; [discriminate|now left].
  - destruct (nth_error (certTasks w) k) as [[form p]|] eqn:Hk;
      [|exact Hkeep].
    assert (Hform : sent_form w form).
    { rewrite Forall_forall in Htasks.
      exact (Htasks (form, p) (nth_error_In _ _ Hk)). }
    assert (Hrep : forall p', Forall (fun t => sent_form w (fst t))
                     (replace_nth k (form, p') (certTasks w))).
    { intro p'. apply Forall_forall. intros t Hin.
      apply In_replace_nth in Hin. destruct Hin as [->|Hin]; [exact Hform|].
      rewrite Forall_forall in Htasks. now apply Htasks. }
    assert (Hrem : Forall (fun t => sent_form w (fst t))
                     (remove_nth k (certTasks w))).
    { apply Forall_forall. intros t Hin. apply In_remove_nth in Hin.
      rewrite Forall_forall in Htasks. now apply Htasks. }
    assert (Hfailed : forall msg,
              traceable (with_certTasks (remove_nth k (certTasks w))
                           (cert_failed msg w))).
    { intro msg. split; [exact Hrem|].
      cbn [dom with_certTasks].
      destruct (saved_files_failed msg w) as [_ ->]. exact Hsaved. }
    rewrite generateCertificate_resume_eq.
    settle_cases p s;
      lazymatch goal with
      | |- traceable (with_certTasks _ (cert_failed ?m w)) =>
          exact (Hfailed m)
      | |- traceable (with_certTasks _ (cert_saved _ ?b w)) => idtac
      | |- traceable (with_certTasks (replace_nth _ (_, ?q) _) w) =>
          exact (conj (Hrep q) Hsaved)
      end.
    split; [exact Hrem|].
    cbn -[saved_files after_download certificate_filename].
    rewrite saved_files_after_download. apply Forall_app. split.
    + exact Hsaved.
    + constructor; [|constructor]. split; [discriminate|].
      right. exists form. now split.
Qed.

(** X18. In every reachable state every file saved resolved to a blob
    and is named "markdown-export.pdf" or "Certificate_", a participant
    name with its whitespace runs replaced, ".pdf", for a form whose
    request was sent. *)
Theorem saved_certificates_are_traceable (prod : bool)
    (welcome today : jsstring) (page : list N) (w : World)
    (name : jsstring) (target : option Blob) :
  reachable (initial_world prod welcome today page) w ->
  In (name, target) (saved_files (journal (dom w))) ->
  target <> None
  /\ (name = lit "markdown-export.pdf"
      \/ exists form,
           In (certificate_request (api_url w (lit "/api/certificate")) form)
              (network w)
           /\ name = lit "Certificate_"
                     ++ replace_whitespace_runs (participant_name form)
                     ++ lit ".pdf").
Proof.
  intros Hreach Hin.
  assert (H : traceable w).
  { clear Hin. induction Hreach as [|w ev _ IH].
    - split; constructor.
    - now apply step_traceable. }
  destruct H as [_ H]. rewrite Forall_forall in H.
  exact (H (name, target) Hin).
Qed.

(** X20. For a form that passes validation the preview card shows the
    participant, the course and the date that are sent; the instructor it
    shows is the one sent exactly when that field is not empty, and is
    "IntelliForge AI Team" otherwise.  No line of the card is ever
    empty. *)
Theorem preview_against_request (c : CertForm) :
  (first_missing c = None ->
   preview_participant c = participant_name c
   /\ preview_course c = course_name c
   /\ preview_date c = completion_date c)
  /\ (preview_instructor c = instructor_name c <-> instructor_name c <> [])
  /\ (instructor_name c = [] ->
      preview_instructor c = lit "IntelliForge AI Team")
  /\ (preview_participant c <> [] /\ preview_course c <> []
      /\ preview_date c <> [] /\ preview_instructor c <> []).
Proof.
  unfold preview_participant, preview_course, preview_date,
    preview_instructor, or_else, first_missing.
  split; [|split; [|split]].
  - destruct (participant_name c) as [|n name] eqn:Hn.
    + cbn. discriminate.
    + destruct (truthy (trim (n :: name))); [|discriminate].
      destruct (course_name c); [discriminate|].
      destruct (completion_date c); [discriminate|]. now intros _.
  - destruct (instructor_name c); cbn; split; intro H;
      try discriminate; try reflexivity; easy.
  - now intros ->.
  - destruct (participant_name c), (course_name c), (completion_date c),
      (instructor_name c); cbn; repeat split; discriminate.
Qed.

(** ** The first generation of the export ([part_003]) *)

Lemma more_pages_spec (r fuel : nat) (imgHeight heightLeft : Z)
    (positions : list Z) :
  r < fuel ->
  (- pageHeight <= heightLeft - pageHeight * Z.of_nat r < 0)%Z ->
  more_pages fuel imgHeight heightLeft positions
  = Some (positions
          ++ map (fun i => (heightLeft - pageHeight * Z.of_nat i - imgHeight)%Z)
                 (seq 0 r)).
Proof.
  revert fuel heightLeft positions.
  induction r as [|r IH]; intros fuel heightLeft positions Hfuel Hleft;
    (destruct fuel as [|fuel]; [lia|]); cbn [more_pages].
  - destruct (Z.leb_spec 0 heightLeft); [unfold pageHeight in *; lia|].
    cbn [seq map]. now rewrite app_nil_r.
  - destruct (Z.leb_spec 0 heightLeft); [|unfold pageHeight in *; lia].
    assert (H1 : r < fuel) by lia.
    assert (H2 : (- pageHeight
                  <= heightLeft - pageHeight - pageHeight * Z.of_nat r < 0)%Z)
      by (unfold pageHeight in *; lia).
    rewrite (IH fuel _ _ H1 H2).
    rewrite <- app_assoc. cbn [seq map app].
    rewrite <- seq_shift, map_map.
    replace (heightLeft - pageHeight * Z.of_nat 0 - imgHeight)%Z
      with (heightLeft - imgHeight)%Z by (unfold pageHeight; lia).
    apply (f_equal (fun l => Some (positions
                                   ++ (heightLeft - imgHeight)%Z :: l))).
    apply map_ext. intro i. unfold pageHeight. lia.
Qed.

(** X21. For a canvas whose scaled height [h] is a whole number of
    millimetres, the first-generation export places the image once per
    page, at 0, -297, -594, ..., on 1 + h / 297 pages, given fuel for
    that many turns of the loop; the last page shows [h mod 297]
    millimetres of the image, so nothing when [h] is a multiple of the
    page height. *)
Theorem legacy_pdf_page_count (fuel : nat) (canvas_width canvas_height : Z) :
  (0 < canvas_width)%Z -> (0 <= canvas_height)%Z ->
  (canvas_width | canvas_height * 210)%Z ->
  let imgHeight := image_height canvas_width canvas_height in
  let pages := S (Z.to_nat (imgHeight / 297)) in
  Z.to_nat (imgHeight / 297) < fuel ->
  image_positions fuel imgHeight
  = Some (map (fun k => (- (297 * Z.of_nat k))%Z) (seq 0 pages))
  /\ (imgHeight * canvas_width = canvas_height * 210)%Z
  /\ (- (297 * Z.of_nat (pages - 1)) + imgHeight = imgHeight mod 297)%Z.
Proof.
  intros Hw Hh Hdiv imgHeight pages Hfuel.
  assert (Hpos : (0 <= imgHeight)%Z).
  { unfold imgHeight, image_height, imgWidth. apply Z.div_pos; lia. }
  assert (Hq : (0 <= imgHeight / 297)%Z) by (apply Z.div_pos; lia).
  pose proof (Z.div_mod imgHeight 297 ltac:(lia)) as Hdm.
  pose proof (Z.mod_pos_bound imgHeight 297 ltac:(lia)) as Hmod.
  subst pages. split; [|split].
  - unfold image_positions.
    rewrite (more_pages_spec (Z.to_nat (imgHeight / 297)))
      by (try exact Hfuel; unfold pageHeight; rewrite Z2Nat.id by exact Hq;
          lia).
    cbn [seq map app]. f_equal. f_equal.
    rewrite <- seq_shift, map_map. apply map_ext. intro i.
    unfold pageHeight. lia.
  - unfold imgHeight, image_height, imgWidth.
    destruct Hdiv as [q Hq']. rewrite Hq', Z.div_mul by lia. reflexivity.
  - cbn [Nat.sub]. rewrite Nat.sub_0_r, Z2Nat.id by exact Hq. lia.
Qed.

Lemma legacy_pdf_page_count_witness :
  image_positions 5 (image_height 420 1188) = Some [0; -297; -594]%Z.
Proof.
  destruct (legacy_pdf_page_count 5 420 1188) as [Hpages _].
  - lia.
  - lia.
  - exists 594%Z. reflexivity.
  - cbn. lia.
  - rewrite Hpages. reflexivity.
Defined.

(** ** The further properties at concrete inputs *)


Lemma busy_form_shows_no_message_witness :
  let w0 := initial_world true (lit "# Test") (lit "2026-01-01") [1%N] in
  error (react (step w0 ClickDownload)) = None.
Proof.
  intro w0.
  destruct (busy_form_shows_no_message true (lit "# Test") (lit "2026-01-01")
              [1%N] (step w0 ClickDownload) (reach_step _ _ _ (reach_init _)))
    as [Hconv _].
  apply Hconv. reflexivity.
Defined.

Lemma page_is_left_as_found_witness :
  let w0 := initial_world true (lit "# Test") (lit "2026-01-01") [1; 2]%N in
  let w := run w0 [ ClickDownload;
                    SettleConvert 0 (OfFetch (FetchResponse 200));
                    SettleConvert 0 (OfBlob (BlobResolved [37; 80]%N)) ] in
  body_children (dom w) = [1; 2]%N /\ object_urls (dom w) = []
  /\ length (journal (dom w)) = 5.
Proof.
  intros w0 w.
  destruct (page_is_left_as_found true (lit "# Test") (lit "2026-01-01")
              [1; 2]%N w (run_reachable w0 _)) as [Hbody Hurls].
  split; [exact Hbody|split; [exact Hurls|reflexivity]].
Defined.

Lemma edits_in_flight_do_not_rename_witness :
  let form := mkCertForm (lit "Jane Doe") (lit "Full-Stack AI Development")
                         (lit "2026-01-01") DEFAULT_INSTRUCTOR in
  let w := mkWorld true
             (mkAppState TabCertificate [] false None form false None false)
             (initial_dom [1%N]) [] [] [] in
  let w' := run w [ SubmitCertForm;
                    EditCertField F_participant_name (lit "John Roe");
                    SettleCertificate 0 (OfFetch (FetchResponse 200));
                    SettleCertificate 0 (OfBlob (BlobResolved [37; 80]%N)) ] in
  participant_name (certForm (react w')) = lit "John Roe"
  /\ saved_files (journal (dom w'))
     = [(lit "Certificate_Jane_Doe.pdf", Some [37; 80]%N)].
Proof.
  intros form w w'.
  destruct (edits_in_flight_do_not_rename w F_participant_name
              (lit "John Roe") 200 [37; 80]%N
              eq_refl eq_refl eq_refl eq_refl eq_refl eq_refl)
    as [Hform [_ [Hsaved _]]].
  split.
  - change (participant_name (certForm (react w')) = lit "John Roe").
    fold w' in Hform. rewrite Hform. reflexivity.
  - fold w' in Hsaved. rewrite Hsaved. reflexivity.
Defined.

Lemma sent_courses_are_enumerated_witness :
  let w0 := initial_world true (lit "# Test") (lit "2026-01-01") [1%N] in
  let w := run w0 [ ClickTab TabCertificate;
                    EditCertField F_course_name (lit "Not a course") ] in
  course_name (certForm (react w)) = [].
Proof.
  intros w0 w.
  destruct (sent_courses_are_enumerated true (lit "# Test")
              (lit "2026-01-01") [1%N] w (run_reachable w0 _))
    as [[Hempty|Hin] _]; [exact Hempty|reflexivity].
Defined.

Lemma every_download_has_its_request_witness :
  let w0 := initial_world true (lit "# Test") (lit "2026-01-01") [1%N] in
  let w := run w0 [ ClickDownload;
                    SettleConvert 0 (OfFetch (FetchResponse 200));
                    SettleConvert 0 (OfBlob (BlobResolved [37; 80]%N));
                    ClickDownload ] in
  1 + 1 + 0 <= length (network w).
Proof.
  intros w0 w.
  exact (every_download_has_its_request true (lit "# Test")
           (lit "2026-01-01") [1%N] w (run_reachable w0 _)).
Defined.

Lemma saved_certificates_are_traceable_witness :
  let w0 := initial_world true (lit "# Test") (lit "2026-01-01") [1%N] in
  let w := run w0 [ ClickDownload;
                    SettleConvert 0 (OfFetch (FetchResponse 200));
                    SettleConvert 0 (OfBlob (BlobResolved [37; 80]%N)) ] in
  Some [37; 80]%N <> None.
Proof.
  intros w0 w.
  destruct (saved_certificates_are_traceable true (lit "# Test")
              (lit "2026-01-01") [1%N] w (lit "markdown-export.pdf")
              (Some [37; 80]%N) (run_reachable w0 _))
    as [Hsome _].
  - left. reflexivity.
  - exact Hsome.
Defined.

Lemma failed_conversion_can_be_retried_witness :
  let w := initial_world true (lit "# Test") (lit "2026-01-01") [1%N] in
  let failed :=
    run w [ ClickDownload;
            SettleConvert 0 (OfFetch (FetchRejected (lit "Failed to fetch"))) ]
  in
  let again := run failed [ EditMarkdown (lit "# Again"); ClickDownload ] in
  error (react failed) = Some (lit "Failed to fetch")
  /\ error (react again) = None /\ convTasks again = [AwaitFetch].
Proof.
  intros w failed again.
  destruct (failed_conversion_can_be_retried w (lit "Failed to fetch")
              (lit "# Again") eq_refl eq_refl eq_refl)
    as [[Hshown _] [Herr [_ [Htask _]]]].
  split; [exact Hshown|split; [exact Herr|exact Htask]].
Defined.
